(** * Room registry and connection lifecycle of the Y.js WebSocket server

    A shallow embedding of the two server scripts of the repository,
    [src/server.cjs] and its logging variant [src/unnamed/part_000], and
    the verification of their room registry: path resolution, the
    [connection] and [close] handlers, the statistics counters and the
    periodic status report.

    Layout: the JavaScript run-time notions the scripts rely on (strings,
    [Map], numbers printed in template literals, exceptions), then one
    module per script, then the delivery of socket events to a script's
    handlers, then the theorems. *)

From Stdlib Require Import ZArith List String Ascii Bool Lia DecimalString.
Import ListNotations.

Open Scope string_scope.
Open Scope Z_scope.

(** ** JavaScript run-time model *)

(** A [Date] is identified with what [toISOString()] prints for it: the
    scripts only ever store dates and print them that way. *)
Definition Date := string.

(** Exceptions.  The only one the handlers could raise is the [TypeError]
    of a property access on [undefined]. *)
Inductive JsError : Type :=
| TypeError (msg : string).

Inductive result (A : Type) : Type :=
| Ok (a : A)
| Throw (e : JsError).

Arguments Ok {A} a.
Arguments Throw {A} e.

Module JsString.

(** [s ? _ : _] on a string: the empty string is the only falsy one. *)
Definition truthy (s : string) : bool :=
  match s with
  | EmptyString => false
  | String _ _ => true
  end.

(** [s.slice(1)]: everything after the first code unit; the empty
    string stays empty.  Request URLs are sequences of single-byte
    characters, so one [ascii] is one code unit. *)
Definition slice1 (s : string) : string :=
  match s with
  | EmptyString => EmptyString
  | String _ rest => rest
  end.

(** [`${n}`] for an integral number [n]. *)
Definition ofNumber (n : Z) : string :=
  NilZero.string_of_int (Z.to_int n).

End JsString.

(** [Map] with string keys.  A JavaScript [Map] remembers insertion
    order, which [forEach] follows, so it is kept as an association list
    in that order.  [set] overwrites the value of a key that is present
    where it stands and appends a new key at the end; [delete] drops the
    key. *)
Module JsMap.
Section WithValue.
Variable V : Type.

Definition t : Type := list (string * V).

Definition empty : t := [].

Fixpoint get (k : string) (m : t) : option V :=
  match m with
  | [] => None
  | (k', v) :: m' => if String.eqb k k' then Some v else get k m'
  end.

Definition has (k : string) (m : t) : bool :=
  match get k m with
  | Some _ => true
  | None => false
  end.

Fixpoint set (k : string) (v : V) (m : t) : t :=
  match m with
  | [] => [(k, v)]
  | (k', v') :: m' =>
      if String.eqb k k' then (k', v) :: m' else (k', v') :: set k v m'
  end.

Definition delete (k : string) (m : t) : t :=
  filter (fun kv => negb (String.eqb k (fst kv))) m.

Definition size (m : t) : Z := Z.of_nat (List.length m).

Definition keys (m : t) : list string := map fst m.

End WithValue.

Arguments empty {V}.
Arguments get {V} k m.
Arguments has {V} k m.
Arguments set {V} k v m.
Arguments delete {V} k m.
Arguments size {V} m.
Arguments keys {V} m.
End JsMap.

(** ** The objects both scripts build *)

(** The room object literal
    [{ createdAt: new Date(), connectionCount: 0, lastActivity: new Date() }].
    The counters of both scripts only ever hold integers, stepped by one
    per event and exact in a JavaScript number far beyond any number of
    connections a server accepts; they are integers here. *)
Record Room : Type := mkRoom {
  createdAt : Date;
  connectionCount : Z;
  lastActivity : Date
}.

(** [connectionStats]. *)
Record ConnectionStats : Type := mkStats {
  totalConnections : Z;
  activeConnections : Z;
  roomsCreated : Z
}.

Definition freshRoom (now : Date) : Room :=
  {| createdAt := now; connectionCount := 0; lastActivity := now |}.

(** [roomData.connectionCount++; roomData.lastActivity = new Date()]. *)
Definition touchRoom (now : Date) (roomData : Room) : Room :=
  {| createdAt := createdAt roomData;
     connectionCount := connectionCount roomData + 1;
     lastActivity := now |}.

(** [roomData.connectionCount--]. *)
Definition releaseRoom (roomData : Room) : Room :=
  {| createdAt := createdAt roomData;
     connectionCount := connectionCount roomData - 1;
     lastActivity := lastActivity roomData |}.

(** [connectionStats.totalConnections++; connectionStats.activeConnections++]. *)
Definition recordAccepted (st : ConnectionStats) : ConnectionStats :=
  {| totalConnections := totalConnections st + 1;
     activeConnections := activeConnections st + 1;
     roomsCreated := roomsCreated st |}.

(** [connectionStats.roomsCreated++]. *)
Definition recordRoomCreated (st : ConnectionStats) : ConnectionStats :=
  {| totalConnections := totalConnections st;
     activeConnections := activeConnections st;
     roomsCreated := roomsCreated st + 1 |}.

(** [connectionStats.activeConnections--]. *)
Definition recordClosed (st : ConnectionStats) : ConnectionStats :=
  {| totalConnections := totalConnections st;
     activeConnections := activeConnections st - 1;
     roomsCreated := roomsCreated st |}.

(** The double-quote character of the template literals. *)
Definition dquote : string := String (ascii_of_nat 34) EmptyString.

(** The line the status report prints for one room inside
    [activeRooms.forEach]: the room name between double quotes, then
    [data.connectionCount], then [data.lastActivity.toISOString()]. *)
Definition roomLine (roomName : string) (data : Room) : string :=
  "     * " ++ dquote ++ roomName ++ dquote ++ ": "
    ++ JsString.ofNumber (connectionCount data)
    ++ " connections, last active " ++ lastActivity data.

(** ** [src/server.cjs] *)

Module ServerCjs.

(** The module-level bindings [activeRooms] and [connectionStats]. *)
Record State : Type := mkState {
  activeRooms : JsMap.t Room;
  connectionStats : ConnectionStats
}.

Definition init : State :=
  {| activeRooms := JsMap.empty;
     connectionStats :=
       {| totalConnections := 0; activeConnections := 0; roomsCreated := 0 |} |}.

(** [const roomName = url ? url.slice(1) : 'default'] (lines 43-44). *)
Definition roomName (url : string) : string :=
  if JsString.truthy url then JsString.slice1 url else "default".

(** The [connection] handler (lines 39-68).  It runs to completion once
    the event is delivered, and [now] stands for each [new Date()] it
    stores on the way.  It returns the state it leaves behind together
    with the [roomName] its [close] listener captures.
    [setupWSConnection] belongs to the synchronisation engine and touches
    neither binding; the lines written to the console are not part of
    the state. *)
Definition onConnection (url : string) (now : Date) (s : State)
  : result (State * string) :=
  let stats1 := recordAccepted (connectionStats s) in
  let roomName := roomName url in
  let '(rooms1, stats2) :=
    if negb (JsMap.has roomName (activeRooms s))
    then (JsMap.set roomName (freshRoom now) (activeRooms s),
          recordRoomCreated stats1)
    else (activeRooms s, stats1) in
  match JsMap.get roomName rooms1 with
  | None => Throw (TypeError "Cannot read properties of undefined")
  | Some roomData =>
      Ok ({| activeRooms := JsMap.set roomName (touchRoom now roomData) rooms1;
             connectionStats := stats2 |},
          roomName)
  end.

(** The [close] listener of one socket (lines 71-86); [roomName] is the
    name captured when the socket connected. *)
Definition onClose (roomName : string) (s : State) : result State :=
  let stats1 := recordClosed (connectionStats s) in
  if JsMap.has roomName (activeRooms s) then
    match JsMap.get roomName (activeRooms s) with
    | None => Throw (TypeError "Cannot read properties of undefined")
    | Some roomData =>
        let roomData' := releaseRoom roomData in
        let rooms1 := JsMap.set roomName roomData' (activeRooms s) in
        if connectionCount roomData' <=? 0
        then Ok {| activeRooms := JsMap.delete roomName rooms1;
                   connectionStats := stats1 |}
        else Ok {| activeRooms := rooms1; connectionStats := stats1 |}
    end
  else Ok {| activeRooms := activeRooms s; connectionStats := stats1 |}.

(** One tick of the [setInterval] callback (lines 120-135): the lines
    it hands to [console.log], in order. *)
Definition reportTick (now : Date) (s : State) : list string :=
  if (0 <? activeConnections (connectionStats s))
     || (0 <? JsMap.size (activeRooms s))
  then
    [ "[" ++ now ++ "] 📊 Server status:";
      "   - Active connections: "
        ++ JsString.ofNumber (activeConnections (connectionStats s));
      "   - Active rooms: " ++ JsString.ofNumber (JsMap.size (activeRooms s));
      "   - Total connections served: "
        ++ JsString.ofNumber (totalConnections (connectionStats s)) ]
    ++ (if 0 <? JsMap.size (activeRooms s)
        then "   - Active rooms details:"
               :: map (fun kv => roomLine (fst kv) (snd kv)) (activeRooms s)
        else [])
  else [].

End ServerCjs.

(** ** [src/unnamed/part_000] *)

(** A [Y.Doc] object.  The registry never looks inside one; all that
    matters is which object it is, so a document is the serial number of
    the [new Y.Doc()] call that built it. *)
Inductive YDoc : Type :=
| NewYDoc (serial : nat).

Module Part000.

(** The module-level bindings [activeRooms], [connectionStats] and
    [docs]; [allocated] counts the [Y.Doc] objects built so far. *)
Record State : Type := mkState {
  activeRooms : JsMap.t Room;
  connectionStats : ConnectionStats;
  docs : JsMap.t YDoc;
  allocated : nat
}.

Definition init : State :=
  {| activeRooms := JsMap.empty;
     connectionStats :=
       {| totalConnections := 0; activeConnections := 0; roomsCreated := 0 |};
     docs := JsMap.empty;
     allocated := O |}.

(** [const roomName = url ? url.slice(1) : 'default'] (lines 61-62). *)
Definition roomName (url : string) : string :=
  if JsString.truthy url then JsString.slice1 url else "default".

(** [getYDoc] (lines 41-55) on the bindings [docs] and [allocated]. *)
Definition getYDoc (roomName : string) (ds : JsMap.t YDoc) (n : nat)
  : YDoc * JsMap.t YDoc * nat :=
  match JsMap.get roomName ds with
  | Some doc => (doc, ds, n)
  | None =>
      let doc := NewYDoc n in
      (doc, JsMap.set roomName doc ds, S n)
  end.

(** The [connection] handler (lines 57-89). *)
Definition onConnection (url : string) (now : Date) (s : State)
  : result (State * string) :=
  let stats1 := recordAccepted (connectionStats s) in
  let roomName := roomName url in
  let '(rooms1, stats2) :=
    if negb (JsMap.has roomName (activeRooms s))
    then (JsMap.set roomName (freshRoom now) (activeRooms s),
          recordRoomCreated stats1)
    else (activeRooms s, stats1) in
  match JsMap.get roomName rooms1 with
  | None => Throw (TypeError "Cannot read properties of undefined")
  | Some roomData =>
      let rooms2 := JsMap.set roomName (touchRoom now roomData) rooms1 in
      let '(_, docs1, allocated1) := getYDoc roomName (docs s) (allocated s) in
      Ok ({| activeRooms := rooms2;
             connectionStats := stats2;
             docs := docs1;
             allocated := allocated1 |},
          roomName)
  end.

(** The [close] listener of one socket (lines 92-107). *)
Definition onClose (roomName : string) (s : State) : result State :=
  let stats1 := recordClosed (connectionStats s) in
  if JsMap.has roomName (activeRooms s) then
    match JsMap.get roomName (activeRooms s) with
    | None => Throw (TypeError "Cannot read properties of undefined")
    | Some roomData =>
        let roomData' := releaseRoom roomData in
        let rooms1 := JsMap.set roomName roomData' (activeRooms s) in
        if connectionCount roomData' <=? 0
        then Ok {| activeRooms := JsMap.delete roomName rooms1;
                   connectionStats := stats1;
                   docs := docs s;
                   allocated := allocated s |}
        else Ok {| activeRooms := rooms1;
                   connectionStats := stats1;
                   docs := docs s;
                   allocated := allocated s |}
    end
  else Ok {| activeRooms := activeRooms s;
             connectionStats := stats1;
             docs := docs s;
             allocated := allocated s |}.

(** One tick of the [setInterval] callback (lines 139-153). *)
Definition reportTick (now : Date) (s : State) : list string :=
  if (0 <? activeConnections (connectionStats s))
     || (0 <? JsMap.size (activeRooms s))
  then
    [ "[INFO] [" ++ now ++ "] Server status:";
      "   - Active connections: "
        ++ JsString.ofNumber (activeConnections (connectionStats s));
      "   - Active rooms: " ++ JsString.ofNumber (JsMap.size (activeRooms s));
      "   - Total connections served: "
        ++ JsString.ofNumber (totalConnections (connectionStats s)) ]
    ++ (if 0 <? JsMap.size (activeRooms s)
        then "   - Active rooms details:"
               :: map (fun kv => roomLine (fst kv) (snd kv)) (activeRooms s)
        else [])
  else [].

End Part000.

(** ** Delivery of socket events *)

(** What the [ws] library needs of a server script: its start-up
    bindings, the listener of [connection] and the listener each socket
    gets for [close], plus the two bindings the registry consists of. *)
Class Server (S : Type) : Type := {
  boot : S;
  connection : string -> Date -> S -> result (S * string);
  close : string -> S -> result S;
  roomTable : S -> JsMap.t Room;
  stats : S -> ConnectionStats
}.

#[export] Instance serverCjs : Server ServerCjs.State := {
  boot := ServerCjs.init;
  connection := ServerCjs.onConnection;
  close := ServerCjs.onClose;
  roomTable := ServerCjs.activeRooms;
  stats := ServerCjs.connectionStats
}.

#[export] Instance part000 : Server Part000.State := {
  boot := Part000.init;
  connection := Part000.onConnection;
  close := Part000.onClose;
  roomTable := Part000.activeRooms;
  stats := Part000.connectionStats
}.

(** An event of the transport: a client connects with request URL [url]
    at the instant [now], or the [n]-th accepted socket (counted from 0)
    closes. *)
Inductive Event : Type :=
| Connect (url : string) (now : Date)
| Disconnect (n : nat).

Section Delivery.
Context {S : Type} `{Server S}.

(** The process: the script's bindings and, for every socket accepted
    so far in order of acceptance, the room name its [close] listener
    holds, or [None] once the socket has closed. *)
Record World : Type := mkWorld {
  program : S;
  sockets : list (option string)
}.

Definition start : World := {| program := boot; sockets := [] |}.

Fixpoint markClosed (n : nat) (socks : list (option string))
  : list (option string) :=
  match socks, n with
  | [], _ => []
  | _ :: rest, O => None :: rest
  | sock :: rest, Datatypes.S n' => sock :: markClosed n' rest
  end.

(** The room name held by the [n]-th socket if it is still open. *)
Definition openSocket (n : nat) (socks : list (option string))
  : option string :=
  match nth_error socks n with
  | Some (Some roomName) => Some roomName
  | _ => None
  end.

(** Delivery of one event.  [ws] emits [close] once per socket, so a
    [Disconnect] of a socket that is not open has no successor; neither
    has an event whose listener throws, an uncaught exception ending
    the process. *)
Definition deliver (e : Event) (w : World) : option World :=
  match e with
  | Connect url now =>
      match connection url now (program w) with
      | Ok (s', roomName) =>
          Some {| program := s'; sockets := sockets w ++ [Some roomName] |}
      | Throw _ => None
      end
  | Disconnect n =>
      match openSocket n (sockets w) with
      | Some roomName =>
          match close roomName (program w) with
          | Ok s' =>
              Some {| program := s'; sockets := markClosed n (sockets w) |}
          | Throw _ => None
          end
      | None => None
      end
  end.

Fixpoint run (evs : list Event) (w : World) : option World :=
  match evs with
  | [] => Some w
  | e :: evs' =>
      match deliver e w with
      | Some w' => run evs' w'
      | None => None
      end
  end.

Definition reachable (w : World) : Prop :=
  exists evs, run evs start = Some w.

(** Number of open sockets whose listener holds [roomName]. *)
Fixpoint attached (roomName : string) (socks : list (option string)) : nat :=
  match socks with
  | [] => O
  | Some r :: rest =>
      if String.eqb roomName r then Datatypes.S (attached roomName rest)
      else attached roomName rest
  | None :: rest => attached roomName rest
  end.

Fixpoint openCount (socks : list (option string)) : nat :=
  match socks with
  | [] => O
  | Some _ :: rest => Datatypes.S (openCount rest)
  | None :: rest => openCount rest
  end.

End Delivery.

Arguments World S : clear implicits.

(** [sum(room.connectionCount for room in RoomTable)]. *)
Fixpoint sumConnectionCounts (rooms : JsMap.t Room) : Z :=
  match rooms with
  | [] => 0
  | (_, room) :: rest => connectionCount room + sumConnectionCounts rest
  end.

(** ** Notions the statements are phrased with *)

(** The [connectionCount] the table records for a name: that of its room,
    and [0] for a name without a room. *)
Definition roomCount (roomName : string) (rooms : JsMap.t Room) : Z :=
  match JsMap.get roomName rooms with
  | Some room => connectionCount room
  | None => 0
  end.

(** What the registry of a running [src/server.cjs] satisfies between
    any two events. *)
Record Consistent (w : World ServerCjs.State) : Prop := mkConsistent {
  keysDistinct :
    NoDup (JsMap.keys (ServerCjs.activeRooms (program w)));
  countsAttached :
    forall r, roomCount r (ServerCjs.activeRooms (program w))
              = Z.of_nat (attached r (sockets w));
  countsPositive :
    forall r room, JsMap.get r (ServerCjs.activeRooms (program w)) = Some room ->
                   0 < connectionCount room;
  activeOpen :
    activeConnections (ServerCjs.connectionStats (program w))
    = Z.of_nat (openCount (sockets w));
  activeSum :
    activeConnections (ServerCjs.connectionStats (program w))
    = sumConnectionCounts (ServerCjs.activeRooms (program w));
  totalAccepted :
    totalConnections (ServerCjs.connectionStats (program w))
    = Z.of_nat (List.length (sockets w))
}.

(** The part of the bindings of [src/unnamed/part_000] that
    [src/server.cjs] has too. *)
Definition registry (s : Part000.State) : ServerCjs.State :=
  {| ServerCjs.activeRooms := Part000.activeRooms s;
     ServerCjs.connectionStats := Part000.connectionStats s |}.

Definition registryWorld (w : World Part000.State) : World ServerCjs.State :=
  {| program := registry (program w); sockets := sockets w |}.

(** The room a socket joining [r] finds: the one on record, or the one
    created for it. *)
Definition roomOnJoin (now : Date) (r : string) (rooms : JsMap.t Room) : Room :=
  match JsMap.get r rooms with
  | Some room => room
  | None => freshRoom now
  end.

(** [result] is a functor. *)
Definition mapResult {A B : Type} (f : A -> B) (r : result A) : result B :=
  match r with
  | Ok a => Ok (f a)
  | Throw e => Throw e
  end.

(** Every open socket of a running [src/unnamed/part_000] has a document
    on record in [docs] under the room name it holds. *)
Definition DocsCoverSockets (w : World Part000.State) : Prop :=
  forall n r, openSocket n (sockets w) = Some r ->
              JsMap.has r (Part000.docs (program w)) = true.

(** ** The shutdown listener and further notions *)





(** Documents on record in [docs] are objects built earlier, one per
    room name. *)
Record DocsDistinct (s : Part000.State) : Prop := mkDocsDistinct {
  serialsAllocated :
    forall r n, JsMap.get r (Part000.docs s) = Some (NewYDoc n) ->
                (n < Part000.allocated s)%nat;
  oneNamePerDoc :
    forall r1 r2 doc, JsMap.get r1 (Part000.docs s) = Some doc ->
                      JsMap.get r2 (Part000.docs s) = Some doc -> r1 = r2
}.

(** A state is shown reachable by the events that lead to it. *)
Ltac by_run evs := exists evs; vm_compute; reflexivity.

(** ** Lemmas on [JsMap] *)

Section JsMapFacts.
Context {V : Type}.
Implicit Types (k : string) (v : V) (m : JsMap.t V).

Lemma get_set_same k v m : JsMap.get k (JsMap.set k v m) = Some v.
Proof.
  induction m as [|[k' v'] m IH]; simpl.
  - now rewrite String.eqb_refl.
  - destruct (String.eqb_spec k k') as [->|Hne]; simpl.
    + now rewrite String.eqb_refl.
    + apply String.eqb_neq in Hne. now rewrite Hne.
Qed.

Lemma get_set_other k k' v m :
  k <> k' -> JsMap.get k' (JsMap.set k v m) = JsMap.get k' m.
Proof.
  intros Hne. induction m as [|[k0 v0] m IH]; simpl.
  - destruct (String.eqb_spec k' k); congruence.
  - destruct (String.eqb_spec k k0) as [->|Hk]; simpl.
    + destruct (String.eqb_spec k' k0); congruence.
    + now rewrite IH.
Qed.

Lemma get_delete_same k m : JsMap.get k (JsMap.delete k m) = None.
Proof.
  induction m as [|[k' v'] m IH]; simpl; [reflexivity|].
  destruct (String.eqb_spec k k') as [->|Hne]; simpl; [assumption|].
  apply String.eqb_neq in Hne. now rewrite Hne.
Qed.

Lemma get_delete_other k k' m :
  k <> k' -> JsMap.get k' (JsMap.delete k m) = JsMap.get k' m.
Proof.
  intros Hne. induction m as [|[k0 v0] m IH]; simpl; [reflexivity|].
  destruct (String.eqb_spec k k0) as [->|Hk]; simpl.
  - destruct (String.eqb_spec k' k0); congruence.
  - now rewrite IH.
Qed.

Lemma has_true_get k m :
  JsMap.has k m = true <-> exists v, JsMap.get k m = Some v.
Proof.
  unfold JsMap.has. destruct (JsMap.get k m) as [v|].
  - split; eauto.
  - split; [discriminate | intros [v Hv]; discriminate].
Qed.

Lemma has_false_get k m : JsMap.has k m = false <-> JsMap.get k m = None.
Proof.
  unfold JsMap.has. destruct (JsMap.get k m); split; congruence.
Qed.

Lemma get_none_keys k m : JsMap.get k m = None <-> ~ In k (JsMap.keys m).
Proof.
  induction m as [|[k' v'] m IH]; simpl.
  - split; auto.
  - destruct (String.eqb_spec k k') as [->|Hne].
    + split; [discriminate | intros Hn; exfalso; auto].
    + rewrite IH. split; intros Hn; [intros [He|Hi]; congruence | auto].
Qed.



Lemma keys_set_present k v m :
  JsMap.has k m = true -> JsMap.keys (JsMap.set k v m) = JsMap.keys m.
Proof.
  unfold JsMap.has.
  induction m as [|[k' v'] m IH]; simpl; [discriminate|].
  destruct (String.eqb_spec k k') as [->|Hne]; simpl; [reflexivity|].
  intros Hh. now rewrite IH.
Qed.

Lemma keys_set_absent k v m :
  JsMap.has k m = false -> JsMap.keys (JsMap.set k v m) = (JsMap.keys m ++ [k])%list.
Proof.
  unfold JsMap.has.
  induction m as [|[k' v'] m IH]; simpl; [reflexivity|].
  destruct (String.eqb_spec k k') as [->|Hne]; simpl; [discriminate|].
  intros Hh. now rewrite IH.
Qed.

Lemma nodup_keys_set k v m :
  NoDup (JsMap.keys m) -> NoDup (JsMap.keys (JsMap.set k v m)).
Proof.
  intros Hnd. destruct (JsMap.has k m) eqn:Hh.
  - now rewrite keys_set_present.
  - rewrite keys_set_absent by assumption.
    apply NoDup_app; [assumption | repeat constructor; simpl; tauto |].
    intros x Hx [<-|[]]. apply has_false_get, get_none_keys in Hh. auto.
Qed.

Lemma keys_delete k m :
  JsMap.keys (JsMap.delete k m)
  = filter (fun k' => negb (String.eqb k k')) (JsMap.keys m).
Proof.
  induction m as [|[k' v'] m IH]; simpl; [reflexivity|].
  destruct (String.eqb k k'); simpl; now rewrite IH.
Qed.

Lemma nodup_keys_delete k m :
  NoDup (JsMap.keys m) -> NoDup (JsMap.keys (JsMap.delete k m)).
Proof.
  intros Hnd. rewrite keys_delete. now apply NoDup_filter.
Qed.

Lemma delete_absent k m : JsMap.get k m = None -> JsMap.delete k m = m.
Proof.
  induction m as [|[k' v'] m IH]; simpl; [reflexivity|].
  destruct (String.eqb_spec k k') as [->|Hne]; simpl; [discriminate|].
  intros Hg. now rewrite IH.
Qed.

End JsMapFacts.

(** ** Lemmas on counts *)

Lemma roomCount_set_same k room rooms :
  roomCount k (JsMap.set k room rooms) = connectionCount room.
Proof. unfold roomCount. now rewrite get_set_same. Qed.

Lemma roomCount_set_other k k' room rooms :
  k <> k' -> roomCount k' (JsMap.set k room rooms) = roomCount k' rooms.
Proof. intros Hne. unfold roomCount. now rewrite get_set_other. Qed.

Lemma roomCount_delete_same k rooms : roomCount k (JsMap.delete k rooms) = 0.
Proof. unfold roomCount. now rewrite get_delete_same. Qed.

Lemma roomCount_delete_other k k' rooms :
  k <> k' -> roomCount k' (JsMap.delete k rooms) = roomCount k' rooms.
Proof. intros Hne. unfold roomCount. now rewrite get_delete_other. Qed.

Lemma sum_set k room rooms :
  sumConnectionCounts (JsMap.set k room rooms)
  = sumConnectionCounts rooms - roomCount k rooms + connectionCount room.
Proof.
  unfold roomCount.
  induction rooms as [|[k' room'] rooms IH]; simpl; [lia|].
  destruct (String.eqb_spec k k') as [->|Hne]; simpl; lia.
Qed.

Lemma sum_delete k rooms :
  NoDup (JsMap.keys rooms) ->
  sumConnectionCounts (JsMap.delete k rooms)
  = sumConnectionCounts rooms - roomCount k rooms.
Proof.
  unfold roomCount.
  induction rooms as [|[k' room'] rooms IH]; simpl; [lia|].
  intros Hnd. inversion Hnd as [|? ? Hnotin Hnd']; subst.
  destruct (String.eqb_spec k k') as [->|Hne]; simpl.
  - apply get_none_keys in Hnotin.
    rewrite (delete_absent _ _ Hnotin). lia.
  - rewrite IH by assumption. lia.
Qed.


(** ** Lemmas on sockets *)

Lemma attached_app r r' socks :
  attached r (socks ++ [Some r'])
  = (attached r socks + (if String.eqb r r' then 1 else 0))%nat.
Proof.
  induction socks as [|[r0|] socks IH]; simpl.
  - destruct (String.eqb r r'); reflexivity.
  - destruct (String.eqb r r0); rewrite IH; reflexivity.
  - assumption.
Qed.

Lemma openCount_app r' socks :
  openCount (socks ++ [Some r']) = Datatypes.S (openCount socks).
Proof.
  induction socks as [|[r0|] socks IH]; simpl; congruence.
Qed.

Lemma openSocket_nth n socks r :
  openSocket n socks = Some r <-> nth_error socks n = Some (Some r).
Proof.
  unfold openSocket. destruct (nth_error socks n) as [[r0|]|]; split; congruence.
Qed.

Lemma attached_markClosed n socks r0 r :
  openSocket n socks = Some r0 ->
  (attached r socks
   = attached r (markClosed n socks) + (if String.eqb r r0 then 1 else 0))%nat.
Proof.
  rewrite openSocket_nth. revert n.
  induction socks as [|sock socks IH]; intros [|n]; simpl; try discriminate.
  - intros [= ->]. destruct (String.eqb r r0); lia.
  - intros Hn. specialize (IH n Hn).
    destruct sock as [r1|]; [destruct (String.eqb r r1)|]; lia.
Qed.

Lemma openCount_markClosed n socks r0 :
  openSocket n socks = Some r0 ->
  openCount socks = Datatypes.S (openCount (markClosed n socks)).
Proof.
  rewrite openSocket_nth. revert n.
  induction socks as [|sock socks IH]; intros [|n]; simpl; try discriminate.
  - intros [= ->]. reflexivity.
  - intros Hn. specialize (IH n Hn). destruct sock; lia.
Qed.

Lemma length_markClosed n socks :
  List.length (markClosed n socks) = List.length socks.
Proof.
  revert n. induction socks as [|sock socks IH]; intros [|n]; simpl; auto.
Qed.


Section JsMapOverwrite.
Context {V : Type}.
Implicit Types (k : string) (v : V) (m : JsMap.t V).

Lemma set_set k v1 v2 m : JsMap.set k v2 (JsMap.set k v1 m) = JsMap.set k v2 m.
Proof.
  induction m as [|[k' v'] m IH]; simpl.
  - now rewrite String.eqb_refl.
  - destruct (String.eqb_spec k k') as [->|Hne]; simpl.
    + now rewrite String.eqb_refl.
    + apply String.eqb_neq in Hne. rewrite Hne. now rewrite IH.
Qed.

Lemma delete_set k v m : JsMap.delete k (JsMap.set k v m) = JsMap.delete k m.
Proof.
  induction m as [|[k' v'] m IH]; simpl.
  - now rewrite String.eqb_refl.
  - destruct (String.eqb_spec k k') as [->|Hne]; simpl.
    + now rewrite String.eqb_refl.
    + apply String.eqb_neq in Hne. rewrite Hne. simpl. now rewrite IH.
Qed.

End JsMapOverwrite.

(** ** The handlers of [src/server.cjs] in closed form *)

Lemma onConnection_closed_form url now s :
  ServerCjs.onConnection url now s
  = Ok ({| ServerCjs.activeRooms :=
             JsMap.set (ServerCjs.roomName url)
               (touchRoom now
                  (roomOnJoin now (ServerCjs.roomName url) (ServerCjs.activeRooms s)))
               (ServerCjs.activeRooms s);
           ServerCjs.connectionStats :=
             if JsMap.has (ServerCjs.roomName url) (ServerCjs.activeRooms s)
             then recordAccepted (ServerCjs.connectionStats s)
             else recordRoomCreated (recordAccepted (ServerCjs.connectionStats s)) |},
        ServerCjs.roomName url).
Proof.
  unfold ServerCjs.onConnection, roomOnJoin, JsMap.has.
  destruct (JsMap.get (ServerCjs.roomName url) (ServerCjs.activeRooms s))
    as [room|] eqn:Hget; simpl.
  - now rewrite Hget.
  - now rewrite get_set_same, set_set.
Qed.

Lemma onClose_closed_form r s :
  ServerCjs.onClose r s
  = Ok {| ServerCjs.activeRooms :=
            match JsMap.get r (ServerCjs.activeRooms s) with
            | None => ServerCjs.activeRooms s
            | Some room =>
                if connectionCount room - 1 <=? 0
                then JsMap.delete r (ServerCjs.activeRooms s)
                else JsMap.set r (releaseRoom room) (ServerCjs.activeRooms s)
            end;
          ServerCjs.connectionStats := recordClosed (ServerCjs.connectionStats s) |}.
Proof.
  unfold ServerCjs.onClose, JsMap.has.
  destruct (JsMap.get r (ServerCjs.activeRooms s)) as [room|] eqn:Hget; simpl;
    [|reflexivity].
  destruct (connectionCount room - 1 <=? 0); [|reflexivity].
  now rewrite delete_set.
Qed.

Lemma roomOnJoin_count now r rooms :
  connectionCount (roomOnJoin now r rooms) = roomCount r rooms.
Proof.
  unfold roomOnJoin, roomCount. now destruct (JsMap.get r rooms).
Qed.

(** ** The registry stays consistent *)

Lemma consistent_start : Consistent start.
Proof.
  constructor; simpl; try reflexivity.
  - constructor.
  - intros r room H. discriminate.
Qed.

Lemma consistent_connect url now w w' :
  Consistent w -> deliver (Connect url now) w = Some w' -> Consistent w'.
Proof.
  intros [Hnd Hatt Hpos Hact Hsum Htot]. simpl.
  rewrite onConnection_closed_form. intros [= <-].
  set (r := ServerCjs.roomName url).
  set (rooms := ServerCjs.activeRooms (program w)) in *.
  constructor; simpl; fold r rooms.
  - now apply nodup_keys_set.
  - intros r'. rewrite attached_app.
    destruct (String.eqb_spec r' r) as [->|Hne].
    + rewrite roomCount_set_same. simpl.
      rewrite roomOnJoin_count, Hatt. lia.
    + rewrite roomCount_set_other by congruence. rewrite Hatt. lia.
  - intros r' room.
    destruct (String.eqb_spec r r') as [<-|Hne].
    + rewrite get_set_same. intros [= <-]. simpl.
      rewrite roomOnJoin_count, Hatt. lia.
    + rewrite get_set_other by assumption. apply Hpos.
  - rewrite openCount_app.
    destruct (JsMap.has r rooms); simpl; lia.
  - rewrite sum_set. simpl. rewrite roomOnJoin_count.
    destruct (JsMap.has r rooms); simpl; lia.
  - rewrite length_app. simpl.
    destruct (JsMap.has r rooms); simpl; lia.
Qed.

Lemma consistent_disconnect n w w' :
  Consistent w -> deliver (Disconnect n) w = Some w' -> Consistent w'.
Proof.
  intros [Hnd Hatt Hpos Hact Hsum Htot]. simpl.
  destruct (openSocket n (sockets w)) as [r0|] eqn:Hopen; [|discriminate].
  rewrite onClose_closed_form. intros [= <-].
  set (rooms := ServerCjs.activeRooms (program w)) in *.
  pose proof (attached_markClosed n (sockets w) r0 r0 Hopen) as Hr0.
  rewrite String.eqb_refl in Hr0.
  pose proof (openCount_markClosed n (sockets w) r0 Hopen) as Hoc.
  pose proof (Hatt r0) as Hc0. unfold roomCount in Hc0.
  destruct (JsMap.get r0 rooms) as [room|] eqn:Hget; [|lia].
  assert (Hrc : roomCount r0 rooms = connectionCount room)
    by (unfold roomCount; now rewrite Hget).
  destruct (Z.leb_spec (connectionCount room - 1) 0) as [Hle|Hgt];
    constructor; simpl; fold rooms.
  - now apply nodup_keys_delete.
  - intros r. pose proof (attached_markClosed n (sockets w) r0 r Hopen) as Hr.
    destruct (String.eqb_spec r r0) as [Heq|Hne]; [subst r|].
    + rewrite roomCount_delete_same. lia.
    + rewrite roomCount_delete_other by congruence. rewrite Hatt. lia.
  - intros r room'. destruct (String.eqb_spec r0 r) as [<-|Hne].
    + rewrite get_delete_same. discriminate.
    + rewrite get_delete_other by assumption. apply Hpos.
  - lia.
  - rewrite sum_delete by assumption. lia.
  - now rewrite length_markClosed.
  - now apply nodup_keys_set.
  - intros r. pose proof (attached_markClosed n (sockets w) r0 r Hopen) as Hr.
    destruct (String.eqb_spec r r0) as [Heq|Hne]; [subst r|].
    + rewrite roomCount_set_same. simpl. lia.
    + rewrite roomCount_set_other by congruence. rewrite Hatt. lia.
  - intros r room'. destruct (String.eqb_spec r0 r) as [<-|Hne].
    + rewrite get_set_same. intros [= <-]. simpl. lia.
    + rewrite get_set_other by assumption. apply Hpos.
  - lia.
  - rewrite sum_set. simpl. lia.
  - now rewrite length_markClosed.
Qed.

Lemma consistent_run evs : forall w w',
  Consistent w -> run evs w = Some w' -> Consistent w'.
Proof.
  induction evs as [|e evs IH]; simpl; intros w w' Hc.
  - now intros [= <-].
  - destruct (deliver e w) as [w1|] eqn:Hd; [|discriminate].
    apply IH. destruct e; eauto using consistent_connect, consistent_disconnect.
Qed.

Lemma reachable_consistent w : reachable w -> Consistent w.
Proof.
  intros [evs Hrun]. eapply consistent_run; [apply consistent_start | eassumption].
Qed.

(** ** [src/unnamed/part_000] tracks [src/server.cjs] *)

Lemma roomName_agree url : Part000.roomName url = ServerCjs.roomName url.
Proof. reflexivity. Qed.

Lemma onConnection_registry url now s :
  ServerCjs.onConnection url now (registry s)
  = mapResult (fun sr => (registry (fst sr), snd sr))
      (Part000.onConnection url now s).
Proof.
  unfold ServerCjs.onConnection, Part000.onConnection, Part000.getYDoc.
  change (Part000.roomName url) with (ServerCjs.roomName url). simpl.
  destruct (JsMap.has (ServerCjs.roomName url) (Part000.activeRooms s)); simpl.
  - destruct (JsMap.get (ServerCjs.roomName url) (Part000.activeRooms s));
      simpl; [|reflexivity].
    now destruct (JsMap.get (ServerCjs.roomName url) (Part000.docs s)).
  - destruct (JsMap.get (ServerCjs.roomName url)
                (JsMap.set (ServerCjs.roomName url) (freshRoom now)
                   (Part000.activeRooms s))); simpl; [|reflexivity].
    now destruct (JsMap.get (ServerCjs.roomName url) (Part000.docs s)).
Qed.

Lemma onClose_registry r s :
  ServerCjs.onClose r (registry s) = mapResult registry (Part000.onClose r s).
Proof.
  unfold ServerCjs.onClose, Part000.onClose. simpl.
  destruct (JsMap.has r (Part000.activeRooms s)); [|reflexivity].
  destruct (JsMap.get r (Part000.activeRooms s)) as [room|]; [|reflexivity].
  now destruct (connectionCount room - 1 <=? 0).
Qed.

Lemma deliver_registry e w :
  deliver e (registryWorld w) = option_map registryWorld (deliver e w).
Proof.
  destruct e as [url now|n]; simpl.
  - rewrite onConnection_registry.
    now destruct (Part000.onConnection url now (program w)) as [[s' r]|].
  - destruct (openSocket n (sockets w)) as [r|]; [|reflexivity].
    rewrite onClose_registry.
    now destruct (Part000.onClose r (program w)).
Qed.

Lemma run_registry evs : forall w,
  run evs (registryWorld w) = option_map registryWorld (run evs w).
Proof.
  induction evs as [|e evs IH]; intros w; simpl; [reflexivity|].
  rewrite deliver_registry.
  destruct (deliver e w) as [w1|]; simpl; [apply IH | reflexivity].
Qed.

Lemma reachable_registry (w : World Part000.State) :
  reachable w -> reachable (registryWorld w).
Proof.
  intros [evs Hrun]. exists evs.
  change (@start ServerCjs.State _) with (registryWorld start).
  now rewrite run_registry, Hrun.
Qed.

(** The [close] listener of [src/unnamed/part_000] in closed form. *)
Lemma part000_onClose_closed_form r s :
  Part000.onClose r s
  = Ok {| Part000.activeRooms :=
            match JsMap.get r (Part000.activeRooms s) with
            | None => Part000.activeRooms s
            | Some room =>
                if connectionCount room - 1 <=? 0
                then JsMap.delete r (Part000.activeRooms s)
                else JsMap.set r (releaseRoom room) (Part000.activeRooms s)
            end;
          Part000.connectionStats := recordClosed (Part000.connectionStats s);
          Part000.docs := Part000.docs s;
          Part000.allocated := Part000.allocated s |}.
Proof.
  unfold Part000.onClose, JsMap.has.
  destruct (JsMap.get r (Part000.activeRooms s)) as [room|] eqn:Hget; simpl;
    [|reflexivity].
  destruct (connectionCount room - 1 <=? 0); [|reflexivity].
  now rewrite delete_set.
Qed.

Lemma part000_onConnection_docs url now s :
  exists s', Part000.onConnection url now s = Ok (s', Part000.roomName url)
             /\ JsMap.has (Part000.roomName url) (Part000.docs s') = true
             /\ (forall r, JsMap.has r (Part000.docs s) = true ->
                           JsMap.has r (Part000.docs s') = true).
Proof.
  unfold Part000.onConnection, Part000.getYDoc.
  set (r := Part000.roomName url).
  assert (Hroom : exists room rooms1 stats2,
      (if negb (JsMap.has r (Part000.activeRooms s))
       then (JsMap.set r (freshRoom now) (Part000.activeRooms s),
             recordRoomCreated (recordAccepted (Part000.connectionStats s)))
       else (Part000.activeRooms s, recordAccepted (Part000.connectionStats s)))
      = (rooms1, stats2) /\ JsMap.get r rooms1 = Some room).
  { unfold JsMap.has.
    destruct (JsMap.get r (Part000.activeRooms s)) as [room|] eqn:Hget; simpl.
    - eauto.
    - do 3 eexists. split; [reflexivity | apply get_set_same]. }
  destruct Hroom as (room & rooms1 & stats2 & -> & ->).
  destruct (JsMap.get r (Part000.docs s)) as [doc|] eqn:Hdoc;
    eexists; (split; [reflexivity|]); simpl; split.
  - apply has_true_get. eauto.
  - auto.
  - apply has_true_get. rewrite get_set_same. eauto.
  - intros r' Hr'. apply has_true_get.
    destruct (String.eqb_spec r r') as [<-|Hne].
    + rewrite get_set_same. eauto.
    + rewrite get_set_other by assumption. now apply has_true_get.
Qed.

Lemma openSocket_app n socks r r' :
  openSocket n (socks ++ [Some r]) = Some r' ->
  openSocket n socks = Some r' \/ r' = r.
Proof.
  unfold openSocket. revert n.
  induction socks as [|sock socks IH]; intros [|n]; simpl.
  - intros [= ->]. now right.
  - destruct n; discriminate.
  - auto.
  - apply IH.
Qed.

Lemma openSocket_markClosed m n socks r :
  openSocket m (markClosed n socks) = Some r -> openSocket m socks = Some r.
Proof.
  unfold openSocket. revert m n.
  induction socks as [|sock socks IH]; intros [|m] [|n]; simpl; auto;
    try discriminate.
  apply IH.
Qed.

Lemma docsCover_start : DocsCoverSockets start.
Proof. intros [|n] r; discriminate. Qed.

Lemma docsCover_deliver e w w' :
  DocsCoverSockets w -> deliver e w = Some w' -> DocsCoverSockets w'.
Proof.
  intros Hcov. destruct e as [url now|n]; simpl.
  - destruct (part000_onConnection_docs url now (program w))
      as (s' & -> & Hnew & Hold).
    intros [= <-] m r Hm. simpl in *.
    apply openSocket_app in Hm as [Hm| ->]; eauto.
  - destruct (openSocket n (sockets w)) as [r0|] eqn:Hopen; [|discriminate].
    rewrite part000_onClose_closed_form. intros [= <-] m r Hm. simpl in *.
    apply openSocket_markClosed in Hm. eauto.
Qed.

Lemma docsCover_run evs : forall w w',
  DocsCoverSockets w -> run evs w = Some w' -> DocsCoverSockets w'.
Proof.
  induction evs as [|e evs IH]; simpl; intros w w' Hc.
  - now intros [= <-].
  - destruct (deliver e w) as [w1|] eqn:Hd; [|discriminate].
    apply IH. eauto using docsCover_deliver.
Qed.

Lemma reachable_docsCover (w : World Part000.State) :
  reachable w -> DocsCoverSockets w.
Proof.
  intros [evs Hrun]. eapply docsCover_run; [apply docsCover_start | eassumption].
Qed.

(** ** Every event a running server can receive is handled *)

Lemma onConnection_returns url now s :
  exists s', ServerCjs.onConnection url now s = Ok (s', ServerCjs.roomName url).
Proof. rewrite onConnection_closed_form. eauto. Qed.

Lemma onClose_returns r s : exists s', ServerCjs.onClose r s = Ok s'.
Proof. rewrite onClose_closed_form. eauto. Qed.

Lemma deliver_connect_defined url now (w : World ServerCjs.State) :
  exists w', deliver (Connect url now) w = Some w'.
Proof. simpl. rewrite onConnection_closed_form. eauto. Qed.

Lemma deliver_disconnect_defined n r (w : World ServerCjs.State) :
  openSocket n (sockets w) = Some r ->
  exists w', deliver (Disconnect n) w = Some w'.
Proof. intros Hopen. simpl. rewrite Hopen, onClose_closed_form. eauto. Qed.

(** * Path resolution *)

Lemma roomName_alpha : ServerCjs.roomName "/alpha" = "alpha".
Proof. reflexivity. Qed.

Lemma roomName_empty : ServerCjs.roomName EmptyString = "default".
Proof. reflexivity. Qed.

(** C1, as the code has it: the room name of a request URL is the URL
    without its first character when the URL is not empty, and the name
    [default] for the empty URL only.  So [/alpha] resolves to [alpha] and
    the empty URL to [default], while the URL [/] resolves to the empty
    name.  Both scripts agree on this. *)
Theorem roomName_resolution :
  (forall c rest, ServerCjs.roomName (String c rest) = rest)
  /\ ServerCjs.roomName "/alpha" = "alpha"
  /\ ServerCjs.roomName EmptyString = "default"
  /\ ServerCjs.roomName "/" = EmptyString
  /\ (forall url, Part000.roomName url = ServerCjs.roomName url).
Proof. repeat split. Qed.

(** C1, counterexample: the URL [/] does not resolve to [default]. *)
Lemma roomName_root_not_default : ServerCjs.roomName "/" <> "default".
Proof. discriminate. Qed.

(** * Invariants of the registry *)

(** C2: in every state [src/server.cjs] reaches by a finite sequence of
    connects and disconnects, [connectionStats.activeConnections] is the
    sum of [connectionCount] over the rooms of [activeRooms]. *)
Theorem activeConnections_is_sum (w : World ServerCjs.State) :
  reachable w ->
  activeConnections (ServerCjs.connectionStats (program w))
  = sumConnectionCounts (ServerCjs.activeRooms (program w)).
Proof. intros Hr. apply (activeSum w), reachable_consistent, Hr. Qed.

Lemma activeConnections_is_sum_witness :
  exists w : World ServerCjs.State,
    run [Connect "/docA" "t0"; Connect "/docB" "t1"; Connect "/docA" "t2";
         Disconnect 1] start = Some w
    /\ reachable w
    /\ activeConnections (ServerCjs.connectionStats (program w)) = 2
    /\ sumConnectionCounts (ServerCjs.activeRooms (program w)) = 2
    /\ activeConnections (ServerCjs.connectionStats (program w))
       = sumConnectionCounts (ServerCjs.activeRooms (program w)).
Proof.
  eexists. split; [vm_compute; reflexivity|].
  split; [by_run [Connect "/docA" "t0"; Connect "/docB" "t1";
                  Connect "/docA" "t2"; Disconnect 1]|].
  split; [reflexivity|]. split; [reflexivity|].
  apply activeConnections_is_sum.
  by_run [Connect "/docA" "t0"; Connect "/docB" "t1"; Connect "/docA" "t2";
          Disconnect 1].
Defined.

(** The same invariant for [src/unnamed/part_000]. *)
Lemma part000_activeConnections_is_sum (w : World Part000.State) :
  reachable w ->
  activeConnections (Part000.connectionStats (program w))
  = sumConnectionCounts (Part000.activeRooms (program w)).
Proof.
  intros Hr.
  apply (activeSum (registryWorld w)), reachable_consistent, reachable_registry, Hr.
Qed.

(** C4: in every reachable state a name has a room in [activeRooms]
    exactly when some open socket is attached to it, and the
    [connectionCount] of a room on record is the number of sockets
    attached to it, hence strictly positive. *)
Theorem room_present_iff_positive (w : World ServerCjs.State) :
  reachable w ->
  forall r,
    (JsMap.has r (ServerCjs.activeRooms (program w)) = true
     <-> (0 < attached r (sockets w))%nat)
    /\ (JsMap.has r (ServerCjs.activeRooms (program w)) = true
        <-> 0 < roomCount r (ServerCjs.activeRooms (program w)))
    /\ (forall room,
          JsMap.get r (ServerCjs.activeRooms (program w)) = Some room ->
          connectionCount room = Z.of_nat (attached r (sockets w))
          /\ 0 < connectionCount room).
Proof.
  intros Hr r. apply reachable_consistent in Hr.
  destruct Hr as [_ Hatt Hpos _ _ _].
  specialize (Hatt r). specialize (Hpos r).
  unfold roomCount, JsMap.has in *.
  destruct (JsMap.get r (ServerCjs.activeRooms (program w))) as [room|].
  - specialize (Hpos room eq_refl).
    split; [split; [lia | reflexivity]|].
    split; [split; [lia | reflexivity]|].
    intros room' [= <-]. split; assumption.
  - split; [split; [discriminate | lia]|].
    split; [split; [discriminate | lia]|].
    discriminate.
Qed.

Lemma room_present_iff_positive_witness :
  exists w : World ServerCjs.State,
    run [Connect "/docA" "t0"; Connect "/docB" "t1"; Disconnect 0] start = Some w
    /\ reachable w
    /\ JsMap.has "docA" (ServerCjs.activeRooms (program w)) = false
    /\ JsMap.has "docB" (ServerCjs.activeRooms (program w)) = true
    /\ (JsMap.has "docB" (ServerCjs.activeRooms (program w)) = true
        <-> (0 < attached "docB" (sockets w))%nat).
Proof.
  eexists. split; [vm_compute; reflexivity|].
  split; [by_run [Connect "/docA" "t0"; Connect "/docB" "t1"; Disconnect 0]|].
  split; [reflexivity|]. split; [reflexivity|].
  refine (proj1 (room_present_iff_positive _ _ "docB")).
  by_run [Connect "/docA" "t0"; Connect "/docB" "t1"; Disconnect 0].
Defined.

(** * Scenarios *)

(** C5: from start-up, two clients connecting to [/docA] leave exactly
    one room, [docA], with [connectionCount] 2, created by the first
    connection and last active at the second, and [roomsCreated] is 1:
    the second connection creates no room. *)
Theorem two_joins_share_one_room (t0 t1 : Date) :
  run (S := ServerCjs.State) [Connect "/docA" t0; Connect "/docA" t1] start
  = Some {| program :=
              {| ServerCjs.activeRooms :=
                   [("docA", {| createdAt := t0;
                                connectionCount := 2;
                                lastActivity := t1 |})];
                 ServerCjs.connectionStats :=
                   {| totalConnections := 2;
                      activeConnections := 2;
                      roomsCreated := 1 |} |};
            sockets := [Some "docA"; Some "docA"] |}.
Proof. reflexivity. Qed.

(** The first of the two connections is the one that creates the room. *)
Lemma first_join_creates_room (t0 : Date) :
  run (S := ServerCjs.State) [Connect "/docA" t0] start
  = Some {| program :=
              {| ServerCjs.activeRooms :=
                   [("docA", {| createdAt := t0;
                                connectionCount := 1;
                                lastActivity := t0 |})];
                 ServerCjs.connectionStats :=
                   {| totalConnections := 1;
                      activeConnections := 1;
                      roomsCreated := 1 |} |};
            sockets := [Some "docA"] |}.
Proof. reflexivity. Qed.

(** C6: from start-up, after two clients connect to [/docA] and both
    disconnect, in either order, [activeRooms] holds no room,
    [activeConnections] is 0 and [totalConnections] is 2; and no run of
    the [close] listener changes [totalConnections]. *)
Theorem two_joins_two_leaves (t0 t1 : Date) :
  let final :=
    Some {| program :=
              {| ServerCjs.activeRooms := [];
                 ServerCjs.connectionStats :=
                   {| totalConnections := 2;
                      activeConnections := 0;
                      roomsCreated := 1 |} |};
            sockets := [None; None] |} in
  run (S := ServerCjs.State)
    [Connect "/docA" t0; Connect "/docA" t1; Disconnect 0; Disconnect 1] start
  = final
  /\ run (S := ServerCjs.State)
       [Connect "/docA" t0; Connect "/docA" t1; Disconnect 1; Disconnect 0] start
     = final
  /\ (forall r s, exists s',
         ServerCjs.onClose r s = Ok s'
         /\ totalConnections (ServerCjs.connectionStats s')
            = totalConnections (ServerCjs.connectionStats s)).
Proof.
  repeat split.
  intros r s. rewrite onClose_closed_form. eexists. split; reflexivity.
Qed.

(** * Leaving a room that is not on record *)

(** C7: the [close] listener run for a name without a room returns
    normally and leaves [activeRooms] as it was; only
    [activeConnections] is decremented. *)
Theorem leave_unknown_room_keeps_table (r : string) (s : ServerCjs.State) :
  JsMap.has r (ServerCjs.activeRooms s) = false ->
  ServerCjs.onClose r s
  = Ok {| ServerCjs.activeRooms := ServerCjs.activeRooms s;
          ServerCjs.connectionStats := recordClosed (ServerCjs.connectionStats s) |}.
Proof. intros Hno. unfold ServerCjs.onClose. now rewrite Hno. Qed.

Lemma leave_unknown_room_keeps_table_witness :
  JsMap.has "ghost" (ServerCjs.activeRooms ServerCjs.init) = false
  /\ ServerCjs.onClose "ghost" ServerCjs.init
     = Ok {| ServerCjs.activeRooms := [];
             ServerCjs.connectionStats :=
               {| totalConnections := 0;
                  activeConnections := -1;
                  roomsCreated := 0 |} |}.
Proof.
  split; [reflexivity|].
  apply (leave_unknown_room_keeps_table "ghost" ServerCjs.init). reflexivity.
Defined.

(** * The status report *)

Lemma size_zero_iff {V : Type} (m : JsMap.t V) :
  (0 <? JsMap.size m) = false <-> m = [].
Proof.
  unfold JsMap.size. destruct m as [|kv m].
  - split; reflexivity.
  - split; [|discriminate].
    intros Hs. apply Z.ltb_ge in Hs. simpl List.length in Hs. lia.
Qed.

Lemma roomLine_shape r room :
  exists pre mid post,
    roomLine r room
    = pre ++ r ++ mid ++ JsString.ofNumber (connectionCount room) ++ post.
Proof.
  exists ("     * " ++ dquote), (dquote ++ ": "),
         (" connections, last active " ++ lastActivity room).
  reflexivity.
Qed.

(** C8: in every reachable state a tick of the reporter prints nothing
    exactly when [activeConnections] is 0 and [activeRooms] is empty; and
    for every room on record the report has a line that carries the
    room's name and its [connectionCount]. *)
Theorem report_silent_iff_idle (w : World ServerCjs.State) (now : Date) :
  reachable w ->
  (ServerCjs.reportTick now (program w) = []
   <-> activeConnections (ServerCjs.connectionStats (program w)) = 0
       /\ ServerCjs.activeRooms (program w) = [])
  /\ (forall r room,
        In (r, room) (ServerCjs.activeRooms (program w)) ->
        In (roomLine r room) (ServerCjs.reportTick now (program w))
        /\ exists pre mid post,
             roomLine r room
             = pre ++ r ++ mid ++ JsString.ofNumber (connectionCount room) ++ post).
Proof.
  intros Hr. apply reachable_consistent in Hr.
  destruct Hr as [_ _ _ Hact _ _].
  unfold ServerCjs.reportTick. split.
  - destruct (0 <? activeConnections (ServerCjs.connectionStats (program w)))
      eqn:Hpos; simpl.
    + apply Z.ltb_lt in Hpos. split; [discriminate | lia].
    + apply Z.ltb_ge in Hpos.
      destruct (0 <? JsMap.size (ServerCjs.activeRooms (program w))) eqn:Hsz.
      * split; [discriminate|]. intros [_ Hempty].
        rewrite Hempty in Hsz. discriminate.
      * apply size_zero_iff in Hsz. split; [|reflexivity].
        intros _. split; [lia | assumption].
  - intros r room Hin. split; [|apply roomLine_shape].
    assert (Hsz : (0 <? JsMap.size (ServerCjs.activeRooms (program w))) = true).
    { destruct (0 <? JsMap.size (ServerCjs.activeRooms (program w))) eqn:Hsz;
        [reflexivity|].
      apply size_zero_iff in Hsz. rewrite Hsz in Hin. destruct Hin. }
    rewrite Hsz, orb_true_r.
    apply in_or_app. right. right.
    apply (in_map (fun kv => roomLine (fst kv) (snd kv)) _ (r, room) Hin).
Qed.

Lemma report_silent_iff_idle_witness :
  exists w : World ServerCjs.State,
    run [Connect "/docA" "t0"; Connect "/docA" "t1"] start = Some w
    /\ reachable w
    /\ ServerCjs.reportTick "t2" (program w)
       = [ "[t2] 📊 Server status:";
           "   - Active connections: 2";
           "   - Active rooms: 1";
           "   - Total connections served: 2";
           "   - Active rooms details:";
           roomLine "docA" (mkRoom "t0" 2 "t1") ]
    /\ In (roomLine "docA" (mkRoom "t0" 2 "t1"))
          (ServerCjs.reportTick "t2" (program w)).
Proof.
  eexists. split; [vm_compute; reflexivity|].
  split; [by_run [Connect "/docA" "t0"; Connect "/docA" "t1"]|].
  split; [reflexivity|].
  refine (proj1 (proj2 (report_silent_iff_idle _ "t2" _) "docA" _ _)).
  - by_run [Connect "/docA" "t0"; Connect "/docA" "t1"].
  - simpl. left. reflexivity.
Defined.

(** At start-up, with no connection and no room, the tick prints nothing. *)
Lemma report_silent_at_start (now : Date) :
  ServerCjs.reportTick now ServerCjs.init = [].
Proof. reflexivity. Qed.

(** * The query string is part of the room name *)

(** C9: the room name of a connection is its request URL less the first
    character, query string included.  Hence two connections whose URLs
    differ after the first character, such as [/docA] and
    [/docA?token=1], end up in two rooms of one connection each. *)
Theorem query_string_in_room_name
  (c : ascii) (rest1 rest2 : string) (t0 t1 : Date) :
  rest1 <> rest2 ->
  ServerCjs.roomName (String c rest1) = rest1
  /\ ServerCjs.roomName (String c rest2) = rest2
  /\ run (S := ServerCjs.State)
       [Connect (String c rest1) t0; Connect (String c rest2) t1] start
     = Some {| program :=
                 {| ServerCjs.activeRooms :=
                      [(rest1, {| createdAt := t0;
                                  connectionCount := 1;
                                  lastActivity := t0 |});
                       (rest2, {| createdAt := t1;
                                  connectionCount := 1;
                                  lastActivity := t1 |})];
                    ServerCjs.connectionStats :=
                      {| totalConnections := 2;
                         activeConnections := 2;
                         roomsCreated := 2 |} |};
               sockets := [Some rest1; Some rest2] |}.
Proof.
  intros Hne. split; [reflexivity|]. split; [reflexivity|].
  assert (Hneq : String.eqb rest2 rest1 = false)
    by (apply String.eqb_neq; congruence).
  simpl. rewrite !onConnection_closed_form. simpl.
  unfold JsMap.has, roomOnJoin. simpl.
  change (ServerCjs.roomName (String c rest1)) with rest1.
  change (ServerCjs.roomName (String c rest2)) with rest2.
  rewrite !Hneq. reflexivity.
Qed.

Lemma query_string_in_room_name_witness :
  "docA" <> "docA?token=1"
  /\ ServerCjs.roomName "/docA" = "docA"
  /\ ServerCjs.roomName "/docA?token=1" = "docA?token=1"
  /\ run (S := ServerCjs.State)
       [Connect "/docA" "t0"; Connect "/docA?token=1" "t1"] start
     = Some {| program :=
                 {| ServerCjs.activeRooms :=
                      [("docA", mkRoom "t0" 1 "t0");
                       ("docA?token=1", mkRoom "t1" 1 "t1")];
                    ServerCjs.connectionStats := mkStats 2 2 2 |};
               sockets := [Some "docA"; Some "docA?token=1"] |}.
Proof.
  split; [discriminate|].
  apply (query_string_in_room_name "/" "docA" "docA?token=1" "t0" "t1").
  discriminate.
Defined.

(** * The two scripts keep the same registry *)

(** C10: fed the same finite sequence of connects and disconnects from
    start-up, [src/server.cjs] and [src/unnamed/part_000] either both
    have no successor state or both reach states with the same sockets,
    the same [activeRooms], entry for entry, and the same
    [connectionStats]. *)
Theorem variants_agree (evs : list Event) :
  run (S := ServerCjs.State) evs start
  = option_map registryWorld (run (S := Part000.State) evs start)
  /\ match run (S := ServerCjs.State) evs start,
           run (S := Part000.State) evs start with
     | Some w1, Some w2 =>
         ServerCjs.activeRooms (program w1) = Part000.activeRooms (program w2)
         /\ ServerCjs.connectionStats (program w1)
            = Part000.connectionStats (program w2)
         /\ sockets w1 = sockets w2
     | None, None => True
     | _, _ => False
     end.
Proof.
  assert (Heq : run (S := ServerCjs.State) evs start
                = option_map registryWorld (run (S := Part000.State) evs start)).
  { change (@start ServerCjs.State _) with (registryWorld start).
    apply run_registry. }
  split; [exact Heq|].
  rewrite Heq. destruct (run (S := Part000.State) evs start) as [w2|]; simpl; auto.
Qed.

(** * What the last leave releases *)

(** C3, counterexample: after the only connection to [docA] closes,
    [docs] of [src/unnamed/part_000] still holds the document of
    [docA]. *)
Lemma last_leave_document_retained :
  exists w : World Part000.State,
    run [Connect "/docA" "t0"; Disconnect 0] start = Some w
    /\ JsMap.has "docA" (Part000.activeRooms (program w)) = false
    /\ JsMap.get "docA" (Part000.docs (program w)) = Some (NewYDoc 0)
    /\ JsMap.has "docA" (Part000.docs (program w)) <> false.
Proof.
  eexists. split; [vm_compute; reflexivity|].
  split; [reflexivity|]. split; [reflexivity|]. discriminate.
Qed.

(** C3, as the code has it: when the last socket attached to a room
    closes, the room is removed from [activeRooms]; [docs] is left as it
    was and still holds the document of that room. *)
Theorem last_leave_removes_room_only
  (w : World Part000.State) (n : nat) (r : string) :
  reachable w ->
  openSocket n (sockets w) = Some r ->
  attached r (sockets w) = 1%nat ->
  exists w',
    deliver (Disconnect n) w = Some w'
    /\ JsMap.has r (Part000.activeRooms (program w')) = false
    /\ Part000.docs (program w') = Part000.docs (program w)
    /\ JsMap.has r (Part000.docs (program w')) = true.
Proof.
  intros Hr Hopen Hone.
  pose proof (reachable_docsCover w Hr n r Hopen) as Hdoc.
  apply reachable_registry, reachable_consistent in Hr.
  destruct Hr as [_ Hatt _ _ _ _]. specialize (Hatt r).
  simpl in Hatt. rewrite Hone in Hatt. unfold roomCount in Hatt.
  simpl. rewrite Hopen, part000_onClose_closed_form.
  eexists. split; [reflexivity|]. simpl.
  split; [|split; [reflexivity | assumption]].
  destruct (JsMap.get r (Part000.activeRooms (program w))) as [room|];
    [|discriminate].
  rewrite Hatt. simpl. apply has_false_get, get_delete_same.
Qed.

Lemma last_leave_removes_room_only_witness :
  exists w : World Part000.State,
    run [Connect "/docA" "t0"] start = Some w
    /\ reachable w
    /\ openSocket 0 (sockets w) = Some "docA"
    /\ attached "docA" (sockets w) = 1%nat
    /\ exists w',
         deliver (Disconnect 0) w = Some w'
         /\ JsMap.has "docA" (Part000.activeRooms (program w')) = false
         /\ Part000.docs (program w') = Part000.docs (program w)
         /\ JsMap.has "docA" (Part000.docs (program w')) = true.
Proof.
  eexists. split; [vm_compute; reflexivity|].
  split; [by_run [Connect "/docA" "t0"]|].
  split; [reflexivity|]. split; [reflexivity|].
  apply (last_leave_removes_room_only _ O "docA").
  - by_run [Connect "/docA" "t0"].
  - reflexivity.
  - reflexivity.
Defined.

(** * Further properties of the registry *)

(** ** Counters *)

Section JsMapLength.
Context {V : Type}.
Implicit Types (k : string) (v : V) (m : JsMap.t V).

Lemma set_absent k v m :
  JsMap.get k m = None -> JsMap.set k v m = (m ++ [(k, v)])%list.
Proof.
  induction m as [|[k' v'] m IH]; simpl; [reflexivity|].
  destruct (String.eqb k k'); [discriminate|].
  intros Hg. now rewrite IH.
Qed.

Lemma length_set k v m :
  List.length (JsMap.set k v m)
  = (List.length m + (if JsMap.has k m then 0 else 1))%nat.
Proof.
  unfold JsMap.has.
  induction m as [|[k' v'] m IH]; simpl; [reflexivity|].
  destruct (String.eqb k k'); simpl; [lia|].
  rewrite IH. destruct (JsMap.get k m); lia.
Qed.

Lemma length_delete_le k m :
  (List.length (JsMap.delete k m) <= List.length m)%nat.
Proof. apply filter_length_le. Qed.

Lemma in_get_nodup k v m :
  NoDup (JsMap.keys m) -> In (k, v) m -> JsMap.get k m = Some v.
Proof.
  induction m as [|[k' v'] m IH]; simpl; [tauto|].
  intros Hnd [Heq|Hin]; inversion Hnd as [|? ? Hnotin Hnd']; subst.
  - inversion Heq; subst. now rewrite String.eqb_refl.
  - destruct (String.eqb_spec k k') as [->|Hne]; [|auto].
    exfalso. apply Hnotin. unfold JsMap.keys. now apply (in_map fst) in Hin.
Qed.

End JsMapLength.

Lemma size_le_sum rooms :
  (forall k room, In (k, room) rooms -> 0 < connectionCount room) ->
  JsMap.size rooms <= sumConnectionCounts rooms.
Proof.
  unfold JsMap.size.
  induction rooms as [|[k room] rooms IH]; simpl List.length; simpl; [lia|].
  intros Hpos.
  assert (0 < connectionCount room) by (apply (Hpos k); simpl; auto).
  assert (Z.of_nat (List.length rooms) <= sumConnectionCounts rooms)
    by (apply IH; intros k' room' Hin; apply (Hpos k'); simpl; auto).
  lia.
Qed.

Lemma created_bounds_deliver e (w w' : World ServerCjs.State) :
  deliver e w = Some w' ->
  JsMap.size (ServerCjs.activeRooms (program w))
    <= roomsCreated (ServerCjs.connectionStats (program w))
    <= totalConnections (ServerCjs.connectionStats (program w)) ->
  JsMap.size (ServerCjs.activeRooms (program w'))
    <= roomsCreated (ServerCjs.connectionStats (program w'))
    <= totalConnections (ServerCjs.connectionStats (program w')).
Proof.
  unfold JsMap.size. destruct e as [url now|n]; simpl.
  - rewrite onConnection_closed_form. intros [= <-]. simpl.
    rewrite length_set.
    destruct (JsMap.has (ServerCjs.roomName url) (ServerCjs.activeRooms (program w)));
      simpl; lia.
  - destruct (openSocket n (sockets w)) as [r0|]; [|discriminate].
    rewrite onClose_closed_form. intros [= <-]. simpl.
    destruct (JsMap.get r0 (ServerCjs.activeRooms (program w))) as [room|] eqn:Hget;
      [|lia].
    destruct (connectionCount room - 1 <=? 0).
    + pose proof (length_delete_le r0 (ServerCjs.activeRooms (program w))). lia.
    + rewrite length_set.
      assert (Hh : JsMap.has r0 (ServerCjs.activeRooms (program w)) = true)
        by (apply has_true_get; eauto).
      rewrite Hh. lia.
Qed.

Lemma created_bounds_run evs : forall (w w' : World ServerCjs.State),
  run evs w = Some w' ->
  JsMap.size (ServerCjs.activeRooms (program w))
    <= roomsCreated (ServerCjs.connectionStats (program w))
    <= totalConnections (ServerCjs.connectionStats (program w)) ->
  JsMap.size (ServerCjs.activeRooms (program w'))
    <= roomsCreated (ServerCjs.connectionStats (program w'))
    <= totalConnections (ServerCjs.connectionStats (program w')).
Proof.
  induction evs as [|e evs IH]; simpl; intros w w'.
  - now intros [= <-].
  - destruct (deliver e w) as [w1|] eqn:Hd; [|discriminate].
    intros Hrun Hb. apply (IH w1 w' Hrun).
    now apply (created_bounds_deliver e w w1).
Qed.

(** X1: in every reachable state of [src/server.cjs] the counters are
    ordered: the number of rooms on record is at most
    [activeConnections], which is at most [totalConnections], and the
    number of rooms is at most [roomsCreated], which is at most
    [totalConnections]; none is negative. *)
Theorem counters_ordered (w : World ServerCjs.State) :
  reachable w ->
  0 <= JsMap.size (ServerCjs.activeRooms (program w))
  /\ JsMap.size (ServerCjs.activeRooms (program w))
     <= activeConnections (ServerCjs.connectionStats (program w))
     <= totalConnections (ServerCjs.connectionStats (program w))
  /\ JsMap.size (ServerCjs.activeRooms (program w))
     <= roomsCreated (ServerCjs.connectionStats (program w))
     <= totalConnections (ServerCjs.connectionStats (program w)).
Proof.
  intros Hr. split; [unfold JsMap.size; lia|]. split.
  - pose proof (reachable_consistent w Hr) as [Hnd Hatt Hpos Hact Hsum Htot].
    split.
    + rewrite Hsum. apply size_le_sum. intros k room Hin.
      apply (Hpos k). now apply in_get_nodup.
    + rewrite Hact, Htot.
      assert (openCount (sockets w) <= List.length (sockets w))%nat; [|lia].
      clear. induction (sockets w) as [|[r|] socks IH]; simpl; lia.
  - destruct Hr as [evs Hrun].
    apply (created_bounds_run evs start w Hrun).
    unfold JsMap.size. simpl. lia.
Qed.

Lemma counters_ordered_witness :
  exists w : World ServerCjs.State,
    run [Connect "/docA" "t0"; Connect "/docB" "t1"; Disconnect 0;
         Connect "/docB" "t2"] start = Some w
    /\ reachable w
    /\ JsMap.size (ServerCjs.activeRooms (program w)) = 1
    /\ activeConnections (ServerCjs.connectionStats (program w)) = 2
    /\ roomsCreated (ServerCjs.connectionStats (program w)) = 2
    /\ totalConnections (ServerCjs.connectionStats (program w)) = 3
    /\ JsMap.size (ServerCjs.activeRooms (program w))
       <= roomsCreated (ServerCjs.connectionStats (program w))
       <= totalConnections (ServerCjs.connectionStats (program w)).
Proof.
  eexists. split; [vm_compute; reflexivity|].
  split; [by_run [Connect "/docA" "t0"; Connect "/docB" "t1"; Disconnect 0;
                  Connect "/docB" "t2"]|].
  do 4 (split; [reflexivity|]).
  refine (proj2 (proj2 (counters_ordered _ _))).
  by_run [Connect "/docA" "t0"; Connect "/docB" "t1"; Disconnect 0;
          Connect "/docB" "t2"].
Defined.





(** ** What one handler run does to the table *)



(** X5: a connection to a name that has a room keeps the room where it
    stands in [activeRooms] and keeps its [createdAt]; it adds one to its
    [connectionCount], sets [lastActivity] to that instant and leaves
    [roomsCreated] alone. *)
Theorem join_existing_room
  (url : string) (now : Date) (s : ServerCjs.State) (room : Room) :
  JsMap.get (ServerCjs.roomName url) (ServerCjs.activeRooms s) = Some room ->
  exists s',
    ServerCjs.onConnection url now s = Ok (s', ServerCjs.roomName url)
    /\ JsMap.get (ServerCjs.roomName url) (ServerCjs.activeRooms s')
       = Some {| createdAt := createdAt room;
                 connectionCount := connectionCount room + 1;
                 lastActivity := now |}
    /\ JsMap.keys (ServerCjs.activeRooms s') = JsMap.keys (ServerCjs.activeRooms s)
    /\ roomsCreated (ServerCjs.connectionStats s')
       = roomsCreated (ServerCjs.connectionStats s)
    /\ totalConnections (ServerCjs.connectionStats s')
       = totalConnections (ServerCjs.connectionStats s) + 1
    /\ activeConnections (ServerCjs.connectionStats s')
       = activeConnections (ServerCjs.connectionStats s) + 1.
Proof.
  intros Hget. rewrite onConnection_closed_form.
  assert (Hh : JsMap.has (ServerCjs.roomName url) (ServerCjs.activeRooms s) = true)
    by (apply has_true_get; eauto).
  eexists. split; [reflexivity|]. simpl.
  unfold roomOnJoin. rewrite Hget, Hh, get_set_same.
  split; [reflexivity|]. split; [now apply keys_set_present|].
  repeat split.
Qed.

Lemma join_existing_room_witness :
  JsMap.get (ServerCjs.roomName "/docA")
    [("docA", mkRoom "t0" 1 "t0"); ("docB", mkRoom "t1" 1 "t1")]
  = Some (mkRoom "t0" 1 "t0")
  /\ exists s',
       ServerCjs.onConnection "/docA" "t2"
         {| ServerCjs.activeRooms :=
              [("docA", mkRoom "t0" 1 "t0"); ("docB", mkRoom "t1" 1 "t1")];
            ServerCjs.connectionStats := mkStats 2 2 2 |}
       = Ok (s', "docA")
       /\ JsMap.get "docA" (ServerCjs.activeRooms s') = Some (mkRoom "t0" 2 "t2")
       /\ JsMap.keys (ServerCjs.activeRooms s') = ["docA"; "docB"]
       /\ roomsCreated (ServerCjs.connectionStats s') = 2
       /\ totalConnections (ServerCjs.connectionStats s') = 2 + 1
       /\ activeConnections (ServerCjs.connectionStats s') = 2 + 1.
Proof.
  split; [reflexivity|].
  exact (join_existing_room "/docA" "t2"
           {| ServerCjs.activeRooms :=
                [("docA", mkRoom "t0" 1 "t0"); ("docB", mkRoom "t1" 1 "t1")];
              ServerCjs.connectionStats := mkStats 2 2 2 |}
           (mkRoom "t0" 1 "t0") eq_refl).
Defined.


(** X7: neither handler touches the entry of a room other than the one
    it is run for. *)
Theorem other_rooms_untouched (r r' : string) (s : ServerCjs.State) :
  r' <> r ->
  (forall url now,
      ServerCjs.roomName url = r ->
      exists s',
        ServerCjs.onConnection url now s = Ok (s', r)
        /\ JsMap.get r' (ServerCjs.activeRooms s')
           = JsMap.get r' (ServerCjs.activeRooms s))
  /\ (exists s',
        ServerCjs.onClose r s = Ok s'
        /\ JsMap.get r' (ServerCjs.activeRooms s')
           = JsMap.get r' (ServerCjs.activeRooms s)).
Proof.
  intros Hne. split.
  - intros url now <-. rewrite onConnection_closed_form.
    eexists. split; [reflexivity|]. simpl.
    apply get_set_other. congruence.
  - rewrite onClose_closed_form. eexists. split; [reflexivity|]. simpl.
    destruct (JsMap.get r (ServerCjs.activeRooms s)) as [room|]; [|reflexivity].
    destruct (connectionCount room - 1 <=? 0).
    + apply get_delete_other. congruence.
    + apply get_set_other. congruence.
Qed.

Lemma other_rooms_untouched_witness :
  "docB" <> "docA"
  /\ exists s',
       ServerCjs.onClose "docA"
         {| ServerCjs.activeRooms :=
              [("docA", mkRoom "t0" 1 "t0"); ("docB", mkRoom "t1" 1 "t1")];
            ServerCjs.connectionStats := mkStats 2 2 2 |}
       = Ok s'
       /\ JsMap.get "docB" (ServerCjs.activeRooms s')
          = JsMap.get "docB"
              [("docA", mkRoom "t0" 1 "t0"); ("docB", mkRoom "t1" 1 "t1")].
Proof.
  split; [discriminate|].
  refine (proj2 (other_rooms_untouched "docA" "docB"
           {| ServerCjs.activeRooms :=
                [("docA", mkRoom "t0" 1 "t0"); ("docB", mkRoom "t1" 1 "t1")];
              ServerCjs.connectionStats := mkStats 2 2 2 |} _)).
  discriminate.
Defined.

(** X8: a close never rewrites the dates of a room: every room still on
    record after the [close] listener has run has the [createdAt] and the
    [lastActivity] it had before, the room the listener was run for
    included. *)
Theorem leave_keeps_dates (r0 r : string) (s : ServerCjs.State) (room : Room) :
  JsMap.get r (ServerCjs.activeRooms s) = Some room ->
  exists s',
    ServerCjs.onClose r0 s = Ok s'
    /\ forall room', JsMap.get r (ServerCjs.activeRooms s') = Some room' ->
                     createdAt room' = createdAt room
                     /\ lastActivity room' = lastActivity room.
Proof.
  intros Hget. rewrite onClose_closed_form. eexists. split; [reflexivity|].
  simpl. intros room'.
  destruct (JsMap.get r0 (ServerCjs.activeRooms s)) as [room0|] eqn:Hget0.
  - destruct (String.eqb_spec r0 r) as [Heq|Hne].
    + subst r0. rewrite Hget in Hget0. injection Hget0 as <-.
      destruct (connectionCount room - 1 <=? 0).
      * rewrite get_delete_same. discriminate.
      * rewrite get_set_same. intros [= <-]. split; reflexivity.
    + destruct (connectionCount room0 - 1 <=? 0).
      * rewrite get_delete_other, Hget by assumption.
        intros [= <-]. split; reflexivity.
      * rewrite get_set_other, Hget by assumption.
        intros [= <-]. split; reflexivity.
  - rewrite Hget. intros [= <-]. split; reflexivity.
Qed.

Lemma leave_keeps_dates_witness :
  JsMap.get "docA" [("docA", mkRoom "t0" 2 "t1")] = Some (mkRoom "t0" 2 "t1")
  /\ exists s',
       ServerCjs.onClose "docA"
         {| ServerCjs.activeRooms := [("docA", mkRoom "t0" 2 "t1")];
            ServerCjs.connectionStats := mkStats 2 2 1 |}
       = Ok s'
       /\ forall room', JsMap.get "docA" (ServerCjs.activeRooms s') = Some room' ->
                        createdAt room' = "t0" /\ lastActivity room' = "t1".
Proof.
  split; [reflexivity|].
  exact (leave_keeps_dates "docA" "docA"
           {| ServerCjs.activeRooms := [("docA", mkRoom "t0" 2 "t1")];
              ServerCjs.connectionStats := mkStats 2 2 1 |}
           (mkRoom "t0" 2 "t1") eq_refl).
Defined.

(** ** A connection that closes again *)

Lemma openSocket_last socks r :
  openSocket (List.length socks) (socks ++ [Some r]) = Some r.
Proof.
  unfold openSocket. induction socks as [|sock socks IH]; simpl; auto.
Qed.

Lemma markClosed_last socks r :
  markClosed (List.length socks) (socks ++ [Some r]) = (socks ++ [None])%list.
Proof.
  induction socks as [|sock socks IH]; simpl; [reflexivity|]. now rewrite IH.
Qed.

(** X9: in every reachable state, a client that connects and closes
    again before any other event leaves [activeRooms] as it found it,
    except that a room it joined has its [lastActivity] refreshed; a room
    made for it is dropped again.  [activeConnections] is back to what it
    was and [totalConnections] is one more. *)
Theorem join_then_leave_restores
  (w : World ServerCjs.State) (url : string) (now : Date) :
  reachable w ->
  exists w',
    run [Connect url now; Disconnect (List.length (sockets w))] w = Some w'
    /\ ServerCjs.activeRooms (program w')
       = match JsMap.get (ServerCjs.roomName url)
                 (ServerCjs.activeRooms (program w)) with
         | Some room =>
             JsMap.set (ServerCjs.roomName url)
               {| createdAt := createdAt room;
                  connectionCount := connectionCount room;
                  lastActivity := now |}
               (ServerCjs.activeRooms (program w))
         | None => ServerCjs.activeRooms (program w)
         end
    /\ activeConnections (ServerCjs.connectionStats (program w'))
       = activeConnections (ServerCjs.connectionStats (program w))
    /\ totalConnections (ServerCjs.connectionStats (program w'))
       = totalConnections (ServerCjs.connectionStats (program w)) + 1
    /\ sockets w' = (sockets w ++ [None])%list.
Proof.
  intros Hr. apply reachable_consistent in Hr.
  destruct Hr as [_ _ Hpos _ _ _].
  set (r := ServerCjs.roomName url).
  specialize (Hpos r).
  cbn [run deliver connection close serverCjs].
  rewrite onConnection_closed_form. cbn [program sockets]. fold r.
  rewrite openSocket_last, onClose_closed_form. cbn [ServerCjs.activeRooms].
  rewrite get_set_same. eexists. split; [reflexivity|].
  cbn [program sockets ServerCjs.activeRooms ServerCjs.connectionStats].
  rewrite markClosed_last.
  unfold roomOnJoin, JsMap.has.
  destruct (JsMap.get r (ServerCjs.activeRooms (program w))) as [room|] eqn:Hget.
  - specialize (Hpos room eq_refl).
    destruct (Z.leb_spec (connectionCount (touchRoom now room) - 1) 0) as [Hle|Hgt];
      [simpl in Hle; lia|].
    rewrite set_set. unfold releaseRoom, touchRoom. simpl.
    replace (connectionCount room + 1 - 1) with (connectionCount room) by lia.
    repeat split; lia.
  - simpl. rewrite delete_set, (delete_absent _ _ Hget).
    repeat split; lia.
Qed.

Lemma join_then_leave_restores_witness :
  exists w : World ServerCjs.State,
    run [Connect "/docA" "t0"] start = Some w
    /\ reachable w
    /\ exists w',
         run [Connect "/docB" "t1"; Disconnect (List.length (sockets w))] w = Some w'
         /\ ServerCjs.activeRooms (program w') = [("docA", mkRoom "t0" 1 "t0")]
         /\ activeConnections (ServerCjs.connectionStats (program w')) = 1
         /\ totalConnections (ServerCjs.connectionStats (program w')) = 1 + 1
         /\ sockets w' = [Some "docA"; None].
Proof.
  eexists. split; [vm_compute; reflexivity|].
  split; [by_run [Connect "/docA" "t0"]|].
  refine (join_then_leave_restores _ "/docB" "t1" _).
  by_run [Connect "/docA" "t0"].
Defined.

(** * Further properties of [src/unnamed/part_000] *)

Lemma part000_onConnection_closed_form url now s :
  Part000.onConnection url now s
  = Ok ({| Part000.activeRooms :=
             JsMap.set (Part000.roomName url)
               (touchRoom now
                  (roomOnJoin now (Part000.roomName url) (Part000.activeRooms s)))
               (Part000.activeRooms s);
           Part000.connectionStats :=
             if JsMap.has (Part000.roomName url) (Part000.activeRooms s)
             then recordAccepted (Part000.connectionStats s)
             else recordRoomCreated (recordAccepted (Part000.connectionStats s));
           Part000.docs :=
             snd (fst (Part000.getYDoc (Part000.roomName url)
                         (Part000.docs s) (Part000.allocated s)));
           Part000.allocated :=
             snd (Part000.getYDoc (Part000.roomName url)
                    (Part000.docs s) (Part000.allocated s)) |},
        Part000.roomName url).
Proof.
  unfold Part000.onConnection, roomOnJoin, JsMap.has.
  destruct (Part000.getYDoc (Part000.roomName url) (Part000.docs s)
              (Part000.allocated s)) as [[doc docs1] allocated1].
  destruct (JsMap.get (Part000.roomName url) (Part000.activeRooms s))
    as [room|] eqn:Hget; simpl.
  - now rewrite Hget.
  - now rewrite get_set_same, set_set.
Qed.

(** X10: [getYDoc] hands out one document per room name: the document it
    returns is on record under that name afterwards, and a second call
    for the name returns the same document, builds none and leaves [docs]
    as the first call left it. *)
Theorem getYDoc_idempotent (r : string) (ds : JsMap.t YDoc) (n : nat) :
  let '(doc, ds1, n1) := Part000.getYDoc r ds n in
  JsMap.get r ds1 = Some doc
  /\ Part000.getYDoc r ds1 n1 = (doc, ds1, n1).
Proof.
  unfold Part000.getYDoc.
  destruct (JsMap.get r ds) as [doc|] eqn:Hget.
  - rewrite Hget. split; reflexivity.
  - rewrite get_set_same. split; reflexivity.
Qed.

Lemma getYDoc_keeps_others r r' ds n doc :
  JsMap.get r' ds = Some doc ->
  JsMap.get r' (snd (fst (Part000.getYDoc r ds n))) = Some doc.
Proof.
  unfold Part000.getYDoc. intros Hget.
  destruct (JsMap.get r ds) as [doc0|] eqn:Hget0; simpl; [assumption|].
  rewrite get_set_other; [assumption|]. congruence.
Qed.

Lemma docs_permanent_deliver e (w w' : World Part000.State) r doc :
  deliver e w = Some w' ->
  JsMap.get r (Part000.docs (program w)) = Some doc ->
  JsMap.get r (Part000.docs (program w')) = Some doc.
Proof.
  destruct e as [url now|n]; simpl.
  - rewrite part000_onConnection_closed_form. intros [= <-]. simpl.
    apply getYDoc_keeps_others.
  - destruct (openSocket n (sockets w)) as [r0|]; [|discriminate].
    rewrite part000_onClose_closed_form. now intros [= <-].
Qed.

(** X11: a document on record in [docs] stays on record, under the same
    name and as the same object, over every run of events: no close
    drops it and no later connection replaces it, not even one that
    makes the room anew. *)
Theorem docs_permanent
  (evs : list Event) (w w' : World Part000.State) (r : string) (doc : YDoc) :
  run evs w = Some w' ->
  JsMap.get r (Part000.docs (program w)) = Some doc ->
  JsMap.get r (Part000.docs (program w')) = Some doc.
Proof.
  revert w. induction evs as [|e evs IH]; simpl; intros w.
  - now intros [= <-].
  - destruct (deliver e w) as [w1|] eqn:Hd; [|discriminate].
    intros Hrun Hget. apply (IH w1 Hrun).
    now apply (docs_permanent_deliver e w w1).
Qed.

Lemma docs_permanent_witness :
  exists w' : World Part000.State,
    run [Disconnect 0; Connect "/docB" "t1"; Connect "/docA" "t2"]
      {| program :=
           {| Part000.activeRooms := [("docA", mkRoom "t0" 1 "t0")];
              Part000.connectionStats := mkStats 1 1 1;
              Part000.docs := [("docA", NewYDoc 0)];
              Part000.allocated := 1 |};
         sockets := [Some "docA"] |}
    = Some w'
    /\ JsMap.get "docA" [("docA", NewYDoc 0)] = Some (NewYDoc 0)
    /\ JsMap.get "docA" (Part000.docs (program w')) = Some (NewYDoc 0).
Proof.
  eexists. split; [vm_compute; reflexivity|]. split; [reflexivity|].
  exact (docs_permanent
           [Disconnect 0; Connect "/docB" "t1"; Connect "/docA" "t2"]
           {| program :=
                {| Part000.activeRooms := [("docA", mkRoom "t0" 1 "t0")];
                   Part000.connectionStats := mkStats 1 1 1;
                   Part000.docs := [("docA", NewYDoc 0)];
                   Part000.allocated := 1 |};
              sockets := [Some "docA"] |}
           _ "docA" (NewYDoc 0) eq_refl eq_refl).
Defined.

Lemma docsDistinct_start : DocsDistinct Part000.init.
Proof. constructor; simpl; intros; discriminate. Qed.

Lemma docsDistinct_getYDoc r s :
  DocsDistinct s ->
  DocsDistinct
    {| Part000.activeRooms := Part000.activeRooms s;
       Part000.connectionStats := Part000.connectionStats s;
       Part000.docs :=
         snd (fst (Part000.getYDoc r (Part000.docs s) (Part000.allocated s)));
       Part000.allocated :=
         snd (Part000.getYDoc r (Part000.docs s) (Part000.allocated s)) |}.
Proof.
  intros [Hbelow Hone]. unfold Part000.getYDoc.
  destruct (JsMap.get r (Part000.docs s)) as [doc0|] eqn:Hget0; simpl.
  - constructor; simpl; assumption.
  - constructor; simpl.
    + intros r1 n. destruct (String.eqb_spec r r1) as [<-|Hne].
      * rewrite get_set_same. intros [= <-]. lia.
      * rewrite get_set_other by assumption.
        intros Hg. apply Hbelow in Hg. lia.
    + intros r1 r2 doc.
      destruct (String.eqb_spec r r1) as [<-|Hne1];
        destruct (String.eqb_spec r r2) as [<-|Hne2];
        rewrite ?get_set_same, ?get_set_other by assumption.
      * reflexivity.
      * intros [= <-] Hg. apply Hbelow in Hg. lia.
      * intros Hg [= <-]. apply Hbelow in Hg. lia.
      * apply Hone.
Qed.

Lemma docsDistinct_deliver e (w w' : World Part000.State) :
  deliver e w = Some w' ->
  DocsDistinct (program w) -> DocsDistinct (program w').
Proof.
  destruct e as [url now|n]; simpl.
  - rewrite part000_onConnection_closed_form. intros [= <-] Hd. simpl.
    destruct (docsDistinct_getYDoc (Part000.roomName url) (program w) Hd)
      as [Hbelow Hone].
    constructor; assumption.
  - destruct (openSocket n (sockets w)) as [r0|]; [|discriminate].
    rewrite part000_onClose_closed_form. intros [= <-] [Hbelow Hone].
    constructor; assumption.
Qed.

Lemma docsDistinct_run evs : forall (w w' : World Part000.State),
  run evs w = Some w' -> DocsDistinct (program w) -> DocsDistinct (program w').
Proof.
  induction evs as [|e evs IH]; simpl; intros w w'.
  - now intros [= <-].
  - destruct (deliver e w) as [w1|] eqn:Hd; [|discriminate].
    intros Hrun Hdd. apply (IH w1 w' Hrun).
    now apply (docsDistinct_deliver e w w1).
Qed.

(** X12: in every reachable state of [src/unnamed/part_000] no two room
    names share a document: names that [docs] maps to the same document
    are the same name. *)
Theorem rooms_never_share_document
  (w : World Part000.State) (r1 r2 : string) (doc : YDoc) :
  reachable w ->
  JsMap.get r1 (Part000.docs (program w)) = Some doc ->
  JsMap.get r2 (Part000.docs (program w)) = Some doc ->
  r1 = r2.
Proof.
  intros [evs Hrun].
  apply (oneNamePerDoc _ (docsDistinct_run evs start w Hrun docsDistinct_start)).
Qed.

Lemma rooms_never_share_document_witness :
  exists w : World Part000.State,
    run [Connect "/docA" "t0"; Connect "/docB" "t1"; Connect "/docA" "t2"] start
    = Some w
    /\ reachable w
    /\ JsMap.get "docA" (Part000.docs (program w)) = Some (NewYDoc 0)
    /\ JsMap.get "docB" (Part000.docs (program w)) = Some (NewYDoc 1)
    /\ "docA" = "docA".
Proof.
  eexists. split; [vm_compute; reflexivity|].
  split; [by_run [Connect "/docA" "t0"; Connect "/docB" "t1"; Connect "/docA" "t2"]|].
  split; [reflexivity|]. split; [reflexivity|].
  eapply (rooms_never_share_document _ "docA" "docA" (NewYDoc 0)).
  - by_run [Connect "/docA" "t0"; Connect "/docB" "t1"; Connect "/docA" "t2"].
  - reflexivity.
  - reflexivity.
Defined.

Lemma attached_pos_open r socks :
  (0 < attached r socks)%nat -> exists n, openSocket n socks = Some r.
Proof.
  unfold openSocket.
  induction socks as [|[r0|] socks IH]; simpl; [lia| |].
  - destruct (String.eqb_spec r r0) as [->|Hne].
    + intros _. exists O. reflexivity.
    + intros Hpos. destruct (IH Hpos) as [n Hn]. exists (S n). exact Hn.
  - intros Hpos. destruct (IH Hpos) as [n Hn]. exists (S n). exact Hn.
Qed.

Lemma part000_present_iff_attached (w : World Part000.State) r :
  reachable w ->
  (JsMap.has r (Part000.activeRooms (program w)) = true
   <-> (0 < attached r (sockets w))%nat).
Proof.
  intros Hr. apply reachable_registry, reachable_consistent in Hr.
  destruct Hr as [_ Hatt Hpos _ _ _]. simpl in *.
  specialize (Hatt r). specialize (Hpos r). unfold roomCount, JsMap.has in *.
  destruct (JsMap.get r (Part000.activeRooms (program w))) as [room|].
  - specialize (Hpos room eq_refl). split; [lia | reflexivity].
  - split; [discriminate | lia].
Qed.

(** X13: [src/unnamed/part_000] keeps the invariants of the registry
    too: in every reachable state [activeConnections] is the sum of the
    [connectionCount]s on record, a name has a room exactly when some
    open socket is attached to it, and the count on record for a name is
    the number of sockets attached to it. *)
Theorem part000_registry_invariants (w : World Part000.State) :
  reachable w ->
  activeConnections (Part000.connectionStats (program w))
  = sumConnectionCounts (Part000.activeRooms (program w))
  /\ forall r,
       (JsMap.has r (Part000.activeRooms (program w)) = true
        <-> (0 < attached r (sockets w))%nat)
       /\ roomCount r (Part000.activeRooms (program w))
          = Z.of_nat (attached r (sockets w)).
Proof.
  intros Hr. split.
  - apply (activeSum (registryWorld w)), reachable_consistent,
      reachable_registry, Hr.
  - intros r. split; [now apply part000_present_iff_attached|].
    apply (countsAttached (registryWorld w)), reachable_consistent,
      reachable_registry, Hr.
Qed.

Lemma part000_registry_invariants_witness :
  exists w : World Part000.State,
    run [Connect "/docA" "t0"; Connect "/docB" "t1"; Connect "/docA" "t2";
         Disconnect 1] start = Some w
    /\ reachable w
    /\ activeConnections (Part000.connectionStats (program w)) = 2
    /\ activeConnections (Part000.connectionStats (program w))
       = sumConnectionCounts (Part000.activeRooms (program w)).
Proof.
  eexists. split; [vm_compute; reflexivity|].
  split; [by_run [Connect "/docA" "t0"; Connect "/docB" "t1";
                  Connect "/docA" "t2"; Disconnect 1]|].
  split; [reflexivity|].
  refine (proj1 (part000_registry_invariants _ _)).
  by_run [Connect "/docA" "t0"; Connect "/docB" "t1"; Connect "/docA" "t2";
          Disconnect 1].
Defined.

(** X14: in every reachable state of [src/unnamed/part_000] each room on
    record in [activeRooms] has a document on record in [docs]. *)
Theorem active_rooms_have_documents (w : World Part000.State) (r : string) :
  reachable w ->
  JsMap.has r (Part000.activeRooms (program w)) = true ->
  JsMap.has r (Part000.docs (program w)) = true.
Proof.
  intros Hr Hroom.
  apply (part000_present_iff_attached w r Hr) in Hroom.
  destruct (attached_pos_open r (sockets w) Hroom) as [n Hn].
  exact (reachable_docsCover w Hr n r Hn).
Qed.

Lemma active_rooms_have_documents_witness :
  exists w : World Part000.State,
    run [Connect "/docA" "t0"; Connect "/docB" "t1"; Disconnect 0] start = Some w
    /\ reachable w
    /\ JsMap.has "docB" (Part000.activeRooms (program w)) = true
    /\ JsMap.has "docB" (Part000.docs (program w)) = true.
Proof.
  eexists. split; [vm_compute; reflexivity|].
  split; [by_run [Connect "/docA" "t0"; Connect "/docB" "t1"; Disconnect 0]|].
  split; [reflexivity|].
  apply (active_rooms_have_documents _ "docB").
  - by_run [Connect "/docA" "t0"; Connect "/docB" "t1"; Disconnect 0].
  - reflexivity.
Defined.

(** X15: the reporter of [src/unnamed/part_000] behaves as that of
    [src/server.cjs]: in every reachable state a tick prints nothing
    exactly when [activeConnections] is 0 and [activeRooms] is empty, and
    otherwise prints four header lines and, after a fifth, one line per
    room on record, in the order of [activeRooms]. *)
Theorem part000_report_silent_iff_idle (w : World Part000.State) (now : Date) :
  reachable w ->
  (Part000.reportTick now (program w) = []
   <-> activeConnections (Part000.connectionStats (program w)) = 0
       /\ Part000.activeRooms (program w) = [])
  /\ (Part000.activeRooms (program w) <> [] ->
      skipn 5 (Part000.reportTick now (program w))
      = map (fun kv => roomLine (fst kv) (snd kv))
          (Part000.activeRooms (program w))).
Proof.
  intros Hr. apply reachable_registry, reachable_consistent in Hr.
  destruct Hr as [_ _ _ Hact _ _]. simpl in Hact.
  unfold Part000.reportTick. split.
  - destruct (0 <? activeConnections (Part000.connectionStats (program w)))
      eqn:Hpos; simpl.
    + apply Z.ltb_lt in Hpos. split; [discriminate | lia].
    + apply Z.ltb_ge in Hpos.
      destruct (0 <? JsMap.size (Part000.activeRooms (program w))) eqn:Hsz.
      * split; [discriminate|]. intros [_ Hempty].
        rewrite Hempty in Hsz. discriminate.
      * apply size_zero_iff in Hsz. split; [|reflexivity].
        intros _. split; [lia | assumption].
  - intros Hne.
    assert (Hsz : (0 <? JsMap.size (Part000.activeRooms (program w))) = true).
    { destruct (0 <? JsMap.size (Part000.activeRooms (program w))) eqn:Hsz;
        [reflexivity|].
      apply size_zero_iff in Hsz. contradiction. }
    rewrite Hsz, orb_true_r. reflexivity.
Qed.

Lemma part000_report_silent_iff_idle_witness :
  exists w : World Part000.State,
    run [Connect "/docA" "t0"; Connect "/docB" "t1"] start = Some w
    /\ reachable w
    /\ Part000.activeRooms (program w) <> []
    /\ skipn 5 (Part000.reportTick "t2" (program w))
       = map (fun kv => roomLine (fst kv) (snd kv))
           (Part000.activeRooms (program w)).
Proof.
  eexists. split; [vm_compute; reflexivity|].
  split; [by_run [Connect "/docA" "t0"; Connect "/docB" "t1"]|].
  split; [discriminate|].
  refine (proj2 (part000_report_silent_iff_idle _ "t2" _) _).
  - by_run [Connect "/docA" "t0"; Connect "/docB" "t1"].
  - discriminate.
Defined.

(** * The shutdown report *)


(** * A room that is evicted and joined again *)

(** X17: in every reachable state of [src/server.cjs], when the last
    socket attached to a room closes and a client then connects to the
    same name, the room is made anew: it stands at the end of
    [activeRooms] with [connectionCount] 1, created at the instant of the
    new connection, and [roomsCreated] has grown by one. *)
Theorem rejoin_after_eviction_creates_anew
  (w : World ServerCjs.State) (n : nat) (url : string) (now : Date) :
  reachable w ->
  openSocket n (sockets w) = Some (ServerCjs.roomName url) ->
  attached (ServerCjs.roomName url) (sockets w) = 1%nat ->
  exists w',
    run [Disconnect n; Connect url now] w = Some w'
    /\ ServerCjs.activeRooms (program w')
       = (JsMap.delete (ServerCjs.roomName url) (ServerCjs.activeRooms (program w))
          ++ [(ServerCjs.roomName url,
               {| createdAt := now; connectionCount := 1; lastActivity := now |})])%list
    /\ roomsCreated (ServerCjs.connectionStats (program w'))
       = roomsCreated (ServerCjs.connectionStats (program w)) + 1
    /\ activeConnections (ServerCjs.connectionStats (program w'))
       = activeConnections (ServerCjs.connectionStats (program w)).
Proof.
  intros Hr Hopen Hone. apply reachable_consistent in Hr.
  destruct Hr as [_ Hatt _ _ _ _].
  set (r := ServerCjs.roomName url) in *.
  specialize (Hatt r). rewrite Hone in Hatt. unfold roomCount in Hatt.
  cbn [run deliver connection close serverCjs].
  rewrite Hopen, onClose_closed_form. cbn [program sockets].
  rewrite onConnection_closed_form. fold r.
  cbn [ServerCjs.activeRooms ServerCjs.connectionStats].
  eexists. split; [reflexivity|].
  cbn [program ServerCjs.activeRooms ServerCjs.connectionStats].
  destruct (JsMap.get r (ServerCjs.activeRooms (program w))) as [room|] eqn:Hget;
    [|discriminate].
  rewrite Hatt. change (Z.of_nat 1 - 1 <=? 0) with true. cbv iota.
  assert (Hgone : JsMap.get r (JsMap.delete r (ServerCjs.activeRooms (program w)))
                  = None) by apply get_delete_same.
  assert (Hno : JsMap.has r (JsMap.delete r (ServerCjs.activeRooms (program w)))
                = false) by (now apply has_false_get).
  rewrite Hno. unfold roomOnJoin. rewrite Hgone.
  rewrite (set_absent _ _ _ Hgone). simpl.
  repeat split; lia.
Qed.

Lemma rejoin_after_eviction_creates_anew_witness :
  exists w : World ServerCjs.State,
    run [Connect "/docA" "t0"; Connect "/docB" "t1"] start = Some w
    /\ reachable w
    /\ openSocket 0 (sockets w) = Some (ServerCjs.roomName "/docA")
    /\ attached (ServerCjs.roomName "/docA") (sockets w) = 1%nat
    /\ exists w',
         run [Disconnect 0; Connect "/docA" "t2"] w = Some w'
         /\ ServerCjs.activeRooms (program w')
            = (JsMap.delete (ServerCjs.roomName "/docA")
                 (ServerCjs.activeRooms (program w))
               ++ [(ServerCjs.roomName "/docA", mkRoom "t2" 1 "t2")])%list
         /\ roomsCreated (ServerCjs.connectionStats (program w'))
            = roomsCreated (ServerCjs.connectionStats (program w)) + 1
         /\ activeConnections (ServerCjs.connectionStats (program w'))
            = activeConnections (ServerCjs.connectionStats (program w)).
Proof.
  eexists. split; [vm_compute; reflexivity|].
  split; [by_run [Connect "/docA" "t0"; Connect "/docB" "t1"]|].
  split; [reflexivity|]. split; [reflexivity|].
  apply (rejoin_after_eviction_creates_anew _ O "/docA" "t2").
  - by_run [Connect "/docA" "t0"; Connect "/docB" "t1"].
  - reflexivity.
  - reflexivity.
Defined.
